(** * srb2_highscores: the server-info page script

    A shallow embedding of [static/js/server_info.js]: the values the script
    receives from [JSON.parse], the part of the document it reads and writes,
    the two functions [update_background] and [update_info_page], and the
    promise chain of [get_server_info]. *)

From Stdlib Require Import Ascii.
From stdpp Require Import gmap strings list fin_maps pretty.


Local Set Warnings "-register-all".

(** ** JavaScript values *)

(** The values the script can meet.  [JSON.parse] yields [VNull], [VBool],
    [VNum], [VStr], [VArr] and [VObj]; reading a property can also yield
    [VUndefined] or a method of a prototype ([VFun], carrying its name).
    An object is the list of its own properties.  Numbers are the integers,
    with their decimal text (the text of an integer below 10^21); a
    fractional number behaves like a non-zero integer at every use in this
    script, apart from its text. *)
Inductive value : Type :=
| VUndefined
| VNull
| VBool (b : bool)
| VNum (n : Z)
| VStr (s : string)
| VArr (items : list value)
| VObj (fields : list (string * value))
| VFun (name : string).

(** The exceptions the script can raise or be rejected with. *)
Inductive exn : Type :=
| TypeError
| SyntaxError.

(** The completion of an expression: a value, or a thrown exception. *)
Inductive outcome (A : Type) : Type :=
| Normal (a : A)
| Throw (e : exn).
Arguments Normal {A} a.
Arguments Throw {A} e.

Definition obind {A B : Type} (o : outcome A) (f : A -> outcome B) : outcome B :=
  match o with
  | Normal a => f a
  | Throw e => Throw e
  end.

(** Own property of an object. *)
Fixpoint assoc (k : string) (fields : list (string * value)) : option value :=
  match fields with
  | [] => None
  | (k', v) :: rest => if String.eqb k k' then Some v else assoc k rest
  end.

(** [v.k].  Reading a property of [undefined] or [null] throws.  Inherited
    properties are given for the names this script reads ([map], [name],
    [image], [servername], [players], [forEach], [skin], [escape]): an array
    inherits [map] and [forEach], a string inherits [escape] (the helper the
    page installs on [String.prototype]), a function has a [name]. *)
Definition get (v : value) (k : string) : outcome value :=
  match v with
  | VUndefined | VNull => Throw TypeError
  | VObj fields =>
      Normal (match assoc k fields with Some x => x | None => VUndefined end)
  | VArr _ =>
      Normal (if String.eqb k "map" || String.eqb k "forEach"
              then VFun k else VUndefined)
  | VStr _ => Normal (if String.eqb k "escape" then VFun k else VUndefined)
  | VFun name => Normal (if String.eqb k "name" then VStr name else VUndefined)
  | VBool _ | VNum _ => Normal VUndefined
  end.

(** [ToString].  An array joins the texts of its items with commas, [null]
    and [undefined] items giving the empty text.  A parsed object inherits
    [Object.prototype.toString] unless it has an own property of that name,
    which cannot be called: then the conversion throws. *)
Fixpoint to_string (v : value) : outcome string :=
  match v with
  | VUndefined => Normal "undefined"
  | VNull => Normal "null"
  | VBool b => Normal (if b then "true" else "false")
  | VNum n => Normal (pretty n)
  | VStr s => Normal s
  | VArr items =>
      (fix join (l : list value) : outcome string :=
         match l with
         | [] => Normal ""
         | x :: rest =>
             obind (match x with
                    | VUndefined | VNull => Normal ""
                    | _ => to_string x
                    end)
               (fun sx =>
                  match rest with
                  | [] => Normal sx
                  | _ :: _ => obind (join rest) (fun sr => Normal (sx +:+ "," +:+ sr))
                  end)
         end) items
  | VObj fields =>
      match assoc "toString" fields with
      | Some _ => Throw TypeError
      | None => Normal "[object Object]"
      end
  | VFun name => Normal ("function " +:+ name +:+ "() { [native code] }")
  end.

(** [ToBoolean]. *)
Definition truthy (v : value) : bool :=
  match v with
  | VUndefined | VNull => false
  | VBool b => b
  | VNum n => negb (Z.eqb n 0)
  | VStr s => negb (String.eqb s "")
  | VArr _ | VObj _ | VFun _ => true
  end.

(** [v != "None"].  A string is compared as it is; ["None"] is not the text
    of a number, so no number or boolean equals it; [null] and [undefined]
    equal only each other; an array, object or function is compared by its
    text. *)
Definition ne_None (v : value) : outcome bool :=
  match v with
  | VStr s => Normal (negb (String.eqb s "None"))
  | VUndefined | VNull | VBool _ | VNum _ => Normal true
  | VArr _ | VObj _ | VFun _ =>
      obind (to_string v) (fun s => Normal (negb (String.eqb s "None")))
  end.

(** ** The document *)

(** An element: its tag, the markup last assigned to its [innerHTML], and
    the nodes appended to it since.  The markup is kept as the text that was
    assigned; the browser's parse of it is not part of the model.  Assigning
    [innerHTML] discards the appended nodes; with empty markup the element's
    children are exactly the appended nodes. *)
Inductive node : Type :=
| Node (tag : string) (html : string) (appended : list node).

Definition node_tag (n : node) : string := let 'Node t _ _ := n in t.
Definition node_html (n : node) : string := let 'Node _ h _ := n in h.
Definition node_appended (n : node) : list node := let 'Node _ _ a := n in a.

(** The part of the page a script can reach: the elements that carry an id
    (each the root of its own subtree, none inside another) and the
    declarations of the inline style of [<body>], each holding the text last
    assigned to it. *)
Record document : Type := Document {
  elements : gmap string node;
  body_style : gmap string string
}.

(** What the script does to the outside, in the order it does it. *)
Inductive event : Type :=
| EFetch (url : string)
| ESetInnerHTML (id : string) (markup : string)
| EAppendChild (id : string) (child : node)
| ESetStyle (property : string) (text : string).

Record state : Type := State {
  page : document;
  log : list event
}.

(** The configuration the page supplies as globals. *)
Record config : Type := Config {
  api_url : string;
  static_dir : string
}.

(** ** Statements: state and exceptions *)

Definition M (A : Type) : Type := state -> state * outcome A.

Definition ret {A : Type} (a : A) : M A := fun st => (st, Normal a).

Definition throw {A : Type} (e : exn) : M A := fun st => (st, Throw e).

Definition bind {A B : Type} (m : M A) (k : A -> M B) : M B :=
  fun st =>
    match m st with
    | (st', Normal a) => k a st'
    | (st', Throw e) => (st', Throw e)
    end.

Definition lift {A : Type} (o : outcome A) : M A := fun st => (st, o).

Notation "x <- m ;; k" := (bind m (fun x => k))
  (at level 100, m at next level, right associativity).
Notation "m ;; k" := (bind m (fun _ => k))
  (at level 100, right associativity).

(** The ids behind the three handles the script takes when it loads. *)
Definition players_table : string := "players_table".
Definition server_name : string := "server_name".
Definition map_title : string := "map_title".

Definition background_image : string := "background-image".

(** The conversion the [innerHTML] setter applies: [null] is the empty text,
    anything else its [ToString]. *)
Definition dom_string (v : value) : outcome string :=
  match v with
  | VNull => Normal ""
  | _ => to_string v
  end.

(** [handle.innerHTML = v].  A handle whose element was not found is [null]
    and the assignment throws. *)
Definition set_innerHTML (id : string) (v : value) : M unit :=
  fun st =>
    match elements (page st) !! id with
    | None => (st, Throw TypeError)
    | Some (Node tag _ _) =>
        match dom_string v with
        | Throw e => (st, Throw e)
        | Normal s =>
            (State (Document (<[id := Node tag s []]> (elements (page st)))
                             (body_style (page st)))
                   (log st ++ [ESetInnerHTML id s]),
             Normal tt)
        end
    end.

(** [handle.appendChild(child)] for a freshly created [child]. *)
Definition appendChild (id : string) (child : node) : M unit :=
  fun st =>
    match elements (page st) !! id with
    | None => (st, Throw TypeError)
    | Some (Node tag html kids) =>
        (State (Document (<[id := Node tag html (kids ++ [child])]> (elements (page st)))
                         (body_style (page st)))
               (log st ++ [EAppendChild id child]),
         Normal tt)
    end.

(** [document.body.style.backgroundImage = text]: the declaration takes the
    text as it is assigned. *)
Definition set_backgroundImage (text : string) : M unit :=
  fun st =>
    (State (Document (elements (page st))
                     (<[background_image := text]> (body_style (page st))))
           (log st ++ [ESetStyle background_image text]),
     Normal tt).

(** ** The escaping helper *)

(** Modelled from the spec: [String.prototype.escape], the HTML-escaping
    helper the page attaches to strings, is not part of the script.  It
    replaces each of the four characters the spec names by its entity and
    keeps every other character. *)
Definition escape_char (c : Ascii.ascii) : string :=
  if Ascii.eqb c "&"%char then "&amp;"
  else if Ascii.eqb c "<"%char then "&lt;"
  else if Ascii.eqb c ">"%char then "&gt;"
  else if Ascii.eqb c "034"%char then "&quot;"
  else String c "".

Fixpoint escape (s : string) : string :=
  match s with
  | "" => ""
  | String c rest => escape_char c +:+ escape rest
  end.

(** [v.escape()]: defined on strings only. *)
Definition call_escape (v : value) : outcome string :=
  obind (get v "escape")
    (fun f =>
       match f, v with
       | VFun _, VStr s => Normal (escape s)
       | _, _ => Throw TypeError
       end).

(** ** The script *)

(** The callback on each item in turn; a throw ends the loop. *)
Fixpoint for_each (items : list value) (callback : value -> M unit) : M unit :=
  match items with
  | [] => ret tt
  | x :: rest => callback x ;; for_each rest callback
  end.

(** [v.forEach(callback)]: defined on arrays only. *)
Definition call_forEach (v : value) (callback : value -> M unit) : M unit :=
  f <- lift (get v "forEach") ;;
  match f, v with
  | VFun _, VArr items => for_each items callback
  | _, _ => throw TypeError
  end.

(** [if (image && image != "None")] and the assignment under it. *)
Definition update_background (cfg : config) (image : value) : M unit :=
  if truthy image then
    ne <- lift (ne_None image) ;;
    if (ne : bool) then
      s <- lift (to_string image) ;;
      set_backgroundImage
        (((("url('" +:+ static_dir cfg) +:+ "/img/") +:+ s) +:+ "')")
    else ret tt
  else ret tt.

(** The body of the [forEach] callback: a new [tr] gets its markup and is
    appended to the table.  Creating the element and filling it do not touch
    the document; the row enters it at [appendChild]. *)
Definition add_row (player : value) : M unit :=
  name <- lift (get player "name") ;;
  ename <- lift (call_escape name) ;;
  skin <- lift (get player "skin") ;;
  eskin <- lift (call_escape skin) ;;
  appendChild players_table
    (Node "tr" (((("<td>" +:+ ename) +:+ "</td><td>") +:+ eskin) +:+ "</td>") []).

(** The callback [update_info_page] hands to [get_server_info]. *)
Definition render (cfg : config) (data : value) : M unit :=
  m <- lift (get data "map") ;;
  name <- lift (get m "name") ;;
  set_innerHTML map_title name ;;
  servername <- lift (get data "servername") ;;
  set_innerHTML server_name servername ;;
  set_innerHTML players_table (VStr "") ;;
  m' <- lift (get data "map") ;;
  image <- lift (get m' "image") ;;
  update_background cfg image ;;
  players <- lift (get data "players") ;;
  call_forEach players add_row.

(** What comes back for a request: no response at all, or a response with a
    status and a body; the body is given by what [response.json()] makes of
    it, [None] when it is not JSON. *)
Inductive fetch_result : Type :=
| NetworkError
| Response (status : Z) (body : option value).

(** The chain [.then(response => response.json()).then(callback)]: a failed
    fetch rejects it with a [TypeError] and a body that is not JSON with a
    [SyntaxError]; otherwise the callback runs on the parsed body.  The
    status is not looked at. *)
Definition settle (callback : value -> M unit) (r : fetch_result) : M unit :=
  match r with
  | NetworkError => throw TypeError
  | Response _ None => throw SyntaxError
  | Response _ (Some data) => callback data
  end.

(** [get_server_info]: sends the request and returns; what is left of it is
    the chain, waiting for the result. *)
Definition get_server_info (cfg : config) (callback : value -> M unit)
  : M (fetch_result -> M unit) :=
  fun st =>
    (State (page st) (log st ++ [EFetch (api_url cfg +:+ "/server_info")]),
     Normal (settle callback)).

Definition update_info_page (cfg : config) : M (fetch_result -> M unit) :=
  get_server_info cfg (render cfg).

(** A refresh whose result is there before anything else happens: the call
    and then the chain.  [Throw] is the chain rejected; nothing handles it. *)
Definition refresh (cfg : config) (r : fetch_result) : M unit :=
  k <- update_info_page cfg ;;
  k r.

(** ** The event loop *)

(** Between tasks the loop holds the current state and the rejections no
    handler took. *)
Record world : Type := World {
  now : state;
  unhandled : list exn
}.

(** One task, run to completion; a task that throws leaves the state as it
    is at the throw. *)
Definition run {A : Type} (t : M A) (w : world) : world * option A :=
  match t (now w) with
  | (s, Normal a) => (World s (unhandled w), Some a)
  | (s, Throw e) => (World s (unhandled w ++ [e]), None)
  end.

(** [update_info_page] is called twice before either result is there; then
    the results [r1] (of the first call) and [r2] (of the second) arrive, the
    first call's first or the second call's first. *)
Definition two_refreshes (cfg : config) (r1 r2 : fetch_result)
    (first_arrives_first : bool) (w : world) : world :=
  match run (update_info_page cfg) w with
  | (w1, Some k1) =>
      match run (update_info_page cfg) w1 with
      | (w2, Some k2) =>
          if first_arrives_first
          then (run (k2 r2) (run (k1 r1) w2).1).1
          else (run (k1 r1) (run (k2 r2) w2).1).1
      | (w2, None) => w2
      end
  | (w1, None) => w1
  end.

(** ** The response the page expects *)

Record Player : Type := {
  player_name : string;
  player_skin : string
}.

Record ServerInfoResponse : Type := {
  servername : string;
  map_name : string;
  map_image : string;
  players : list Player
}.

Definition field (v : value) (k : string) : option value :=
  match v with
  | VObj fields => assoc k fields
  | _ => None
  end.

Definition as_string (v : value) : option string :=
  match v with
  | VStr s => Some s
  | _ => None
  end.

Definition as_array (v : value) : option (list value) :=
  match v with
  | VArr items => Some items
  | _ => None
  end.

Definition decode_player (v : value) : option Player :=
  n ← field v "name" ≫= as_string;
  s ← field v "skin" ≫= as_string;
  Some {| player_name := n; player_skin := s |}.

(** A parsed body is a valid response when it is an object with a text
    [servername], an object [map] with texts [name] and [image], and an array
    [players] of objects with texts [name] and [skin]. *)
Definition decode (v : value) : option ServerInfoResponse :=
  sn ← field v "servername" ≫= as_string;
  m ← field v "map";
  mn ← field m "name" ≫= as_string;
  mi ← field m "image" ≫= as_string;
  items ← field v "players" ≫= as_array;
  ps ← mapM decode_player items;
  Some {| servername := sn; map_name := mn; map_image := mi; players := ps |}.

(** ** Reading the result *)

(** An image the script shows: a text that is neither empty nor ["None"]. *)
Definition shown (image : string) : bool :=
  negb (String.eqb image "") && negb (String.eqb image "None").

Definition image_url (cfg : config) (image : string) : string :=
  "url('" +:+ static_dir cfg +:+ "/img/" +:+ image +:+ "')".

(** The row of a player. *)
Definition row_markup (p : Player) : string :=
  "<td>" +:+ escape (player_name p) +:+ "</td><td>" +:+ escape (player_skin p) +:+ "</td>".

Definition row_of (p : Player) : node := Node "tr" (row_markup p) [].

(** The three elements the script takes handles of are in the document. *)
Definition handles (d : document) : Prop :=
  is_Some (elements d !! map_title) /\
  is_Some (elements d !! server_name) /\
  is_Some (elements d !! players_table).

(** The text before the first [<] and what follows it. *)
Fixpoint text_until_lt (s : string) : string * string :=
  match s with
  | "" => ("", "")
  | String c rest =>
      if Ascii.eqb c "<"%char then ("", s)
      else let (t, r) := text_until_lt rest in (String c t, r)
  end.

Fixpoint strip_prefix (p s : string) : option string :=
  match p, s with
  | "", _ => Some s
  | String a p', String b s' => if Ascii.eqb a b then strip_prefix p' s' else None
  | String _ _, "" => None
  end.

(** The cells of a row's markup: the markup is read as a sequence of
    [<td>text</td>] with no tag inside the text; anything else is not a
    sequence of plain cells. *)
Fixpoint cells_fuel (fuel : nat) (s : string) : option (list string) :=
  match s, fuel with
  | "", _ => Some []
  | _, 0 => None
  | _, S n =>
      rest ← strip_prefix "<td>" s;
      let (text, rest') := text_until_lt rest in
      rest'' ← strip_prefix "</td>" rest';
      cs ← cells_fuel n rest'';
      Some (text :: cs)
  end.

Definition row_cells (s : string) : option (list string) :=
  cells_fuel (String.length s) s.

Definition starts_with (p s : string) : bool :=
  match strip_prefix p s with
  | Some _ => true
  | None => false
  end.

(** After an [&]: one of the four entities of the escaping helper. *)
Definition entity_tail (s : string) : bool :=
  starts_with "amp;" s || starts_with "lt;" s
  || starts_with "gt;" s || starts_with "quot;" s.

(** The text has no [<], [>] or double quote, and every [&] in it starts an
    entity. *)
Fixpoint no_raw_special (s : string) : bool :=
  match s with
  | "" => true
  | String c rest =>
      if Ascii.eqb c "<"%char || Ascii.eqb c ">"%char || Ascii.eqb c "034"%char
      then false
      else if Ascii.eqb c "&"%char then entity_tail rest && no_raw_special rest
      else no_raw_special rest
  end.

(** The background write comes after every row: no [appendChild] is logged
    after a write to the body's style. *)
Fixpoint background_last (l : list event) : bool :=
  match l with
  | [] => true
  | ESetStyle _ _ :: rest =>
      forallb (fun e => match e with EAppendChild _ _ => false | _ => true end) rest
      && background_last rest
  | _ :: rest => background_last rest
  end.

(** The failures the spec lists: no response, a status outside 200..299, a
    body that is not JSON. *)
Definition listed_failure (r : fetch_result) : bool :=
  match r with
  | NetworkError => true
  | Response status body =>
      negb ((200 <=? status)%Z && (status <=? 299)%Z)
      || match body with None => true | Some _ => false end
  end.

(** ** The page a valid response leaves *)

(** The element [id] with new markup and appended nodes, its tag kept; a
    document without the element is left as it is. *)
Definition with_content (els : gmap string node) (id html : string)
    (kids : list node) : gmap string node :=
  match els !! id with
  | Some n => <[id := Node (node_tag n) html kids]> els
  | None => els
  end.

(** The body's style after [update_background] on a text. *)
Definition paint (cfg : config) (image : string)
    (style : gmap string string) : gmap string string :=
  if shown image then <[background_image := image_url cfg image]> style else style.

Definition paint_log (cfg : config) (image : string) : list event :=
  if shown image then [ESetStyle background_image (image_url cfg image)] else [].

(** The page a valid response leaves, and what is logged on the way
    ([render_valid] below proves that [render] computes them). *)
Definition rendered_page (cfg : config) (r : ServerInfoResponse)
    (d : document) : document :=
  Document
    (with_content
       (with_content
          (with_content (elements d) map_title (map_name r) [])
          server_name (servername r) [])
       players_table "" (row_of <$> players r))
    (paint cfg (map_image r) (body_style d)).

Definition rendered_log (cfg : config) (r : ServerInfoResponse) : list event :=
  [ESetInnerHTML map_title (map_name r);
   ESetInnerHTML server_name (servername r);
   ESetInnerHTML players_table ""]
  ++ paint_log cfg (map_image r)
  ++ (EAppendChild players_table <$> (row_of <$> players r)).

(** A response with a server name and a map and no player. *)
Definition head_only (sn mn mi : string) : ServerInfoResponse :=
  {| servername := sn; map_name := mn; map_image := mi; players := [] |}.

(** ** What a refresh leaves alone *)

(** From [st] to [st'] nothing changed but the content of the three elements
    and the background image: every other element is the same, no element
    came or went or changed its tag, and every other style declaration is the
    same. *)
Definition untouched (st st' : state) : Prop :=
  (forall id, id <> map_title -> id <> server_name -> id <> players_table ->
     elements (page st') !! id = elements (page st) !! id) /\
  (forall id, node_tag <$> (elements (page st') !! id)
              = node_tag <$> (elements (page st) !! id)) /\
  (forall property, property <> background_image ->
     body_style (page st') !! property = body_style (page st) !! property).

Definition keeps {A : Type} (m : M A) : Prop :=
  forall st, untouched st (m st).1.

Definition is_handle (id : string) : Prop :=
  id = map_title \/ id = server_name \/ id = players_table.

(** ** Sample inputs *)

Definition sample_cfg : config := Config "/api" "/static".

(** A page with the three elements, one more element and one more style
    declaration; the table holds a row of an earlier refresh. *)
Definition sample_document : document :=
  Document
    (<[players_table := Node "tbody" "" [Node "tr" "<td>old</td><td>row</td>" []]]>
       (<[server_name := Node "h1" "Old server" []]>
          (<[map_title := Node "h2" "Old map" []]>
             (<["footer" := Node "div" "kept" []]> ∅))))
    (<["color" := "white"]> ∅).

Definition sample_state : state := State sample_document [].

Definition sample_world : world := World sample_state [].

Definition player_value (name skin : string) : value :=
  VObj [("name", VStr name); ("skin", VStr skin)].

Definition response_value (servername name image : string)
    (players : list value) : value :=
  VObj [("servername", VStr servername);
        ("map", VObj [("name", VStr name); ("image", VStr image)]);
        ("players", VArr players)].

Definition sample_response : value :=
  response_value "Test <i>Server</i>" "St Mere <b>Eglise</b>" "town.jpg"
    [player_value "A<b>" "us"; player_value "R&D" "ge"].

Definition sample_decoded : ServerInfoResponse :=
  {| servername := "Test <i>Server</i>";
     map_name := "St Mere <b>Eglise</b>";
     map_image := "town.jpg";
     players := [ {| player_name := "A<b>"; player_skin := "us" |};
                  {| player_name := "R&D"; player_skin := "ge" |} ] |}.

Definition sample_response_no_image : value :=
  response_value "Second" "Pavlov" "None" [player_value "B" "ru"].

Definition sample_decoded_no_image : ServerInfoResponse :=
  {| servername := "Second";
     map_name := "Pavlov";
     map_image := "None";
     players := [ {| player_name := "B"; player_skin := "ru" |} ] |}.

Definition sample_response_no_map : value :=
  VObj [("servername", VStr "Test Server"); ("players", VArr [player_value "A" "us"])].

Definition sample_response_no_players : list (string * value) :=
  [("servername", VStr "Test Server");
   ("map", VObj [("name", VStr "Carentan"); ("image", VStr "town.jpg")])].

(** The end-to-end example of the spec. *)
Definition spec_example : value :=
  response_value "Test Server" "St Mere Eglise" "stmereeglise.jpg"
    [player_value "A<b>" "us"].

(** ** Readings for the rest of the script *)

(** A value with no properties of its own kind to go through: [undefined],
    [null], a boolean, a number or a string. *)
Definition primitive (v : value) : bool :=
  match v with
  | VArr _ | VObj _ | VFun _ => false
  | _ => true
  end.

(** An event that writes to one of the four places of the script: the
    markup of a handle, a child of the players table, the background image. *)
Definition dom_write (e : event) : bool :=
  match e with
  | EFetch _ => false
  | ESetInnerHTML id _ =>
      String.eqb id map_title || String.eqb id server_name
      || String.eqb id players_table
  | EAppendChild id _ => String.eqb id players_table
  | ESetStyle property _ => String.eqb property background_image
  end.

(** From [st] to [st'] the log only grew, and by such writes only. *)
Definition writes_only (st st' : state) : Prop :=
  exists evs, log st' = log st ++ evs /\ forallb dom_write evs = true.

(** Every run of [m] relates the state before to the state after. *)
Definition respects {A : Type} (R : state -> state -> Prop) (m : M A) : Prop :=
  forall st, R st (m st).1.


(** Induction on values that reaches the items of an array and the
    properties of an object. *)
Section ValueInd.

Variable P : value -> Prop.
Hypothesis P_undefined : P VUndefined.
Hypothesis P_null : P VNull.
Hypothesis P_bool : forall b, P (VBool b).
Hypothesis P_num : forall n, P (VNum n).
Hypothesis P_str : forall s, P (VStr s).
Hypothesis P_arr : forall items, Forall P items -> P (VArr items).
Hypothesis P_obj : forall fields, Forall (fun kv => P kv.2) fields -> P (VObj fields).
Hypothesis P_fun : forall name, P (VFun name).


End ValueInd.

(** A page without the map-title element, and one without the table. *)
Definition sample_state_no_title : state :=
  State (Document (delete map_title (elements sample_document))
                  (body_style sample_document)) [].

Definition sample_state_no_table : state :=
  State (Document (delete players_table (elements sample_document))
                  (body_style sample_document)) [].

(** ** Valid responses: what [render] computes *)

Lemma decode_player_inv p pl :
  decode_player p = Some pl ->
  exists fields,
    p = VObj fields /\
    assoc "name" fields = Some (VStr (player_name pl)) /\
    assoc "skin" fields = Some (VStr (player_skin pl)).
Proof.
  unfold decode_player, field. intros H.
  destruct p as [| | | | |?|fields|?]; simpl in H; try discriminate.
  exists fields; split; [reflexivity|].
  destruct (assoc "name" fields) as [[]|]; simpl in H; try discriminate.
  destruct (assoc "skin" fields) as [[]|]; simpl in H; try discriminate.
  injection H as <-. simpl. auto.
Qed.

Lemma decode_inv d r :
  decode d = Some r ->
  exists fields mfields items,
    d = VObj fields /\
    assoc "servername" fields = Some (VStr (servername r)) /\
    assoc "map" fields = Some (VObj mfields) /\
    assoc "name" mfields = Some (VStr (map_name r)) /\
    assoc "image" mfields = Some (VStr (map_image r)) /\
    assoc "players" fields = Some (VArr items) /\
    mapM decode_player items = Some (players r).
Proof.
  unfold decode, field. intros H.
  destruct d as [| | | | |?|fields|?]; simpl in H; try discriminate.
  destruct (assoc "servername" fields) as [[]|] eqn:Hsn; simpl in H; try discriminate.
  destruct (assoc "map" fields) as [[| | | | |?|mfields|?]|] eqn:Hm;
    simpl in H; try discriminate.
  destruct (assoc "name" mfields) as [[]|] eqn:Hmn; simpl in H; try discriminate.
  destruct (assoc "image" mfields) as [[]|] eqn:Hmi; simpl in H; try discriminate.
  destruct (assoc "players" fields) as [[| | | | |items|?|?]|] eqn:Hpl;
    simpl in H; try discriminate.
  destruct (mapM decode_player items) as [ps|] eqn:Hps; simpl in H; try discriminate.
  injection H as <-. simpl.
  exists fields, mfields, items. auto 10.
Qed.

Lemma append_assoc (a b c : string) : (a +:+ b) +:+ c = a +:+ (b +:+ c).
Proof.
  induction a as [|x a IH]; [reflexivity|].
  change (String x ((a +:+ b) +:+ c) = String x (a +:+ (b +:+ c))).
  by rewrite IH.
Qed.

Lemma markup_assoc a b :
  (((("<td>" +:+ a) +:+ "</td><td>") +:+ b) +:+ "</td>")
  = "<td>" +:+ a +:+ "</td><td>" +:+ b +:+ "</td>".
Proof. by rewrite !append_assoc. Qed.

Lemma image_url_eq cfg s :
  (((("url('" +:+ static_dir cfg) +:+ "/img/") +:+ s) +:+ "')") = image_url cfg s.
Proof. unfold image_url. by rewrite !append_assoc. Qed.

(** One valid player: one row appended at the end of the table. *)
Lemma add_row_valid p pl st tag html kids :
  decode_player p = Some pl ->
  elements (page st) !! players_table = Some (Node tag html kids) ->
  add_row p st =
    (State (Document (<[players_table := Node tag html (kids ++ [row_of pl])]>
                        (elements (page st)))
                     (body_style (page st)))
           (log st ++ [EAppendChild players_table (row_of pl)]),
     Normal tt).
Proof.
  intros Hp Hl. apply decode_player_inv in Hp as (fields & -> & Hn & Hs).
  unfold add_row, bind, lift, appendChild, call_escape, get. simpl.
  rewrite Hn, Hs. simpl. rewrite Hl, markup_assoc. reflexivity.
Qed.

Lemma for_each_valid items : forall pls st tag html kids,
  mapM decode_player items = Some pls ->
  elements (page st) !! players_table = Some (Node tag html kids) ->
  for_each items add_row st =
    (State (Document (<[players_table := Node tag html (kids ++ (row_of <$> pls))]>
                        (elements (page st)))
                     (body_style (page st)))
           (log st ++ (EAppendChild players_table <$> (row_of <$> pls))),
     Normal tt).
Proof.
  induction items as [|p items IH]; intros pls st tag html kids Hm Hl.
  - injection Hm as <-. simpl. unfold ret.
    rewrite !app_nil_r, insert_id by done. by destruct st as [[]].
  - simpl in Hm. destruct (decode_player p) as [pl|] eqn:Hp; [|discriminate].
    simpl in Hm. destruct (mapM decode_player items) as [pls'|] eqn:Hps; [|discriminate].
    injection Hm as <-. simpl for_each. unfold bind at 1.
    erewrite add_row_valid by eassumption.
    erewrite IH; [|reflexivity|simpl; apply lookup_insert_eq].
    simpl. rewrite insert_insert_eq, <- !app_assoc. reflexivity.
Qed.

Lemma set_innerHTML_text id s st n :
  elements (page st) !! id = Some n ->
  set_innerHTML id (VStr s) st =
    (State (Document (<[id := Node (node_tag n) s []]> (elements (page st)))
                     (body_style (page st)))
           (log st ++ [ESetInnerHTML id s]),
     Normal tt).
Proof. intros H. unfold set_innerHTML. rewrite H. by destruct n. Qed.

Lemma update_background_text cfg s st :
  update_background cfg (VStr s) st =
    (State (Document (elements (page st)) (paint cfg s (body_style (page st))))
           (log st ++ paint_log cfg s),
     Normal tt).
Proof.
  unfold update_background, paint, paint_log, shown, truthy.
  destruct (String.eqb s ""); simpl.
  - unfold ret. rewrite app_nil_r. by destruct st as [[]].
  - unfold bind, lift, ne_None. destruct (String.eqb s "None"); simpl.
    + unfold ret. rewrite app_nil_r. by destruct st as [[]].
    + unfold set_backgroundImage. simpl. by rewrite image_url_eq.
Qed.

Lemma ids_distinct :
  map_title <> server_name /\ map_title <> players_table /\ server_name <> players_table.
Proof. by repeat split. Qed.

Lemma with_content_lookup els id html kids n :
  els !! id = Some n ->
  with_content els id html kids = <[id := Node (node_tag n) html kids]> els.
Proof. intros H. unfold with_content. by rewrite H. Qed.

Lemma lookup_with_content els id html kids j :
  with_content els id html kids !! j
  = if decide (id = j)
    then (fun n => Node (node_tag n) html kids) <$> (els !! j)
    else els !! j.
Proof.
  unfold with_content. case_decide as E.
  - subst j. destruct (els !! id) eqn:H; simpl; [apply lookup_insert_eq|done].
  - destruct (els !! id); [by apply lookup_insert_ne|done].
Qed.

Lemma render_valid cfg d r st :
  decode d = Some r ->
  handles (page st) ->
  render cfg d st =
    (State (rendered_page cfg r (page st)) (log st ++ rendered_log cfg r), Normal tt).
Proof.
  intros Hd ([n1 H1] & [n2 H2] & [n3 H3]).
  apply decode_inv in Hd as (fields & mfields & items & -> & Hsn & Hm & Hmn & Hmi & Hpl & Hps).
  destruct ids_distinct as (D12 & D13 & D23).
  unfold render, bind at 1, lift at 1, get. rewrite Hm.
  unfold bind at 1, lift at 1. rewrite Hmn.
  unfold bind at 1. rewrite (set_innerHTML_text _ _ _ _ H1).
  unfold bind at 1, lift at 1. rewrite Hsn.
  unfold bind at 1. erewrite set_innerHTML_text
    by (simpl; rewrite lookup_insert_ne by done; exact H2).
  unfold bind at 1. erewrite set_innerHTML_text
    by (simpl; rewrite !lookup_insert_ne by done; exact H3).
  unfold bind at 1, lift at 1. unfold bind at 1, lift at 1. rewrite Hmi.
  unfold bind at 1. rewrite update_background_text.
  unfold bind at 1, lift at 1. rewrite Hpl.
  unfold call_forEach, bind, lift, get. simpl.
  erewrite for_each_valid;
    [|exact Hps|simpl; apply lookup_insert_eq].
  simpl. unfold rendered_page, rendered_log.
  rewrite (with_content_lookup _ _ _ _ _ H1).
  erewrite (with_content_lookup _ server_name)
    by (rewrite lookup_insert_ne by done; exact H2).
  erewrite (with_content_lookup _ players_table)
    by (rewrite !lookup_insert_ne by done; exact H3).
  rewrite insert_insert_eq, <- !app_assoc. reflexivity.
Qed.

(** ** Escaped text and the cells of a row *)

Lemma append_cons (c : ascii) (a b : string) :
  String c a +:+ b = String c (a +:+ b).
Proof. reflexivity. Qed.

Lemma append_nil_l (a : string) : "" +:+ a = a.
Proof. reflexivity. Qed.

(** Push a literal prefix of an append outwards, character by character. *)
Ltac peel := rewrite ?append_cons, ?append_nil_l.

Lemma no_raw_special_escape s : no_raw_special (escape s) = true.
Proof.
  induction s as [|c s IH]; [reflexivity|].
  simpl escape. unfold escape_char.
  destruct (Ascii.eqb c "&") eqn:Eamp;
    [peel; simpl; exact IH|].
  destruct (Ascii.eqb c "<") eqn:Elt;
    [peel; simpl; exact IH|].
  destruct (Ascii.eqb c ">") eqn:Egt;
    [peel; simpl; exact IH|].
  destruct (Ascii.eqb c "034") eqn:Equot;
    [peel; simpl; exact IH|].
  rewrite append_cons. simpl no_raw_special.
  rewrite Eamp, Elt, Egt, Equot. exact IH.
Qed.

Lemma text_until_lt_app a rest :
  no_raw_special a = true ->
  text_until_lt (a +:+ String "<" rest) = (a, String "<" rest).
Proof.
  induction a as [|c a IH]; intros H; [reflexivity|].
  rewrite append_cons. simpl in H |- *.
  destruct (Ascii.eqb c "<"); [discriminate|].
  rewrite IH; [reflexivity|].
  destruct (_ || _); [discriminate|].
  destruct (Ascii.eqb c "&"); [|exact H].
  by apply andb_prop in H as [_ H].
Qed.

Lemma cells_fuel_step n a rest :
  no_raw_special a = true ->
  cells_fuel (S n) ("<td>" +:+ a +:+ "</td>" +:+ rest)
  = cs ← cells_fuel n rest; Some (a :: cs).
Proof.
  intros H.
  change ("<td>" +:+ a +:+ "</td>" +:+ rest)
    with (String "<" (String "t" (String "d" (String ">"
            (a +:+ String "<" (String "/" (String "t" (String "d" (String ">" rest))))))))).
  simpl. by rewrite (text_until_lt_app _ _ H).
Qed.

Lemma row_cells_markup a b :
  no_raw_special a = true ->
  no_raw_special b = true ->
  row_cells ("<td>" +:+ a +:+ "</td><td>" +:+ b +:+ "</td>") = Some [a; b].
Proof.
  intros Ha Hb. unfold row_cells.
  set (tail := "<td>" +:+ b +:+ "</td>" +:+ "").
  change ("<td>" +:+ a +:+ "</td><td>" +:+ b +:+ "</td>")
    with ("<td>" +:+ a +:+ "</td>" +:+ tail).
  change (String.length ("<td>" +:+ a +:+ "</td>" +:+ tail))
    with (S (S (S (S (String.length (a +:+ "</td>" +:+ tail)))))).
  rewrite (cells_fuel_step _ _ _ Ha). unfold tail.
  rewrite (cells_fuel_step _ _ _ Hb). reflexivity.
Qed.

Lemma row_cells_row_of p :
  row_cells (node_html (row_of p))
  = Some [escape (player_name p); escape (player_skin p)].
Proof. apply row_cells_markup; apply no_raw_special_escape. Qed.

(** ** The samples *)

Lemma sample_handles : handles sample_document.
Proof. repeat split; eexists; vm_compute; reflexivity. Defined.

Example sample_decodes : decode sample_response = Some sample_decoded.
Proof. reflexivity. Qed.

Example sample_no_image_decodes :
  decode sample_response_no_image = Some sample_decoded_no_image.
Proof. reflexivity. Qed.

(** The end-to-end example of the spec, with [static_dir] set to [/s]. *)
Example spec_example_rendered :
  refresh (Config "/api" "/s") (Response 200 (Some spec_example)) sample_state
  = (State
       (Document
          (<[players_table :=
               Node "tbody" "" [Node "tr" "<td>A&lt;b&gt;</td><td>us</td>" []]]>
             (<[server_name := Node "h1" "Test Server" []]>
                (<[map_title := Node "h2" "St Mere Eglise" []]>
                   (<["footer" := Node "div" "kept" []]> ∅))))
          (<[background_image := "url('/s/img/stmereeglise.jpg')"]>
             (<["color" := "white"]> ∅)))
       [EFetch "/api/server_info";
        ESetInnerHTML map_title "St Mere Eglise";
        ESetInnerHTML server_name "Test Server";
        ESetInnerHTML players_table "";
        ESetStyle background_image "url('/s/img/stmereeglise.jpg')";
        EAppendChild players_table (Node "tr" "<td>A&lt;b&gt;</td><td>us</td>" [])],
     Normal tt).
Proof. vm_compute. reflexivity. Qed.

(** A body that is an array is not a response, yet its [map] is a method
    with a name: the title and the server name are written before the
    callback throws at the players. *)
Example array_body_rendered :
  render sample_cfg (VArr []) sample_state
  = (State
       (Document
          (<[players_table := Node "tbody" "" []]>
             (<[server_name := Node "h1" "undefined" []]>
                (<[map_title := Node "h2" "map" []]>
                   (<["footer" := Node "div" "kept" []]> ∅))))
          (<["color" := "white"]> ∅))
       [ESetInnerHTML map_title "map";
        ESetInnerHTML server_name "undefined";
        ESetInnerHTML players_table ""],
     Throw TypeError).
Proof. vm_compute. reflexivity. Qed.

(** A player without a skin stops the loop after the rows before it. *)
Example player_without_skin :
  (render sample_cfg
     (response_value "S" "M" "None"
        [player_value "A" "us"; VObj [("name", VStr "B")]; player_value "C" "ge"])
     sample_state).2 = Throw TypeError
  /\ elements (page (render sample_cfg
                       (response_value "S" "M" "None"
                          [player_value "A" "us"; VObj [("name", VStr "B")];
                           player_value "C" "ge"])
                       sample_state).1) !! players_table
     = Some (Node "tbody" "" [Node "tr" "<td>A</td><td>us</td>" []]).
Proof. split; vm_compute; reflexivity. Qed.

(** ** C1, C4: the rows of the players table *)

Lemma valid_table cfg d r st :
  decode d = Some r ->
  handles (page st) ->
  exists tag,
    render cfg d st
    = (State (rendered_page cfg r (page st)) (log st ++ rendered_log cfg r),
       Normal tt) /\
    elements (rendered_page cfg r (page st)) !! players_table
    = Some (Node tag "" (row_of <$> players r)).
Proof.
  intros Hd Hh. pose proof Hh as (_ & _ & [n3 H3]). exists (node_tag n3).
  split; [apply (render_valid _ _ _ _ Hd Hh)|].
  simpl. rewrite !lookup_with_content. repeat case_decide; try done.
  by rewrite H3.
Qed.

Lemma rows_read ps :
  Forall2
    (fun row p =>
       node_tag row = "tr" /\
       node_appended row = [] /\
       node_html row
       = "<td>" +:+ escape (player_name p) +:+ "</td><td>"
         +:+ escape (player_skin p) +:+ "</td>" /\
       row_cells (node_html row)
       = Some [escape (player_name p); escape (player_skin p)])
    (row_of <$> ps) ps.
Proof.
  induction ps as [|p ps IH]; simpl; constructor; [|exact IH].
  split; [reflexivity|]. split; [reflexivity|]. split; [reflexivity|].
  apply row_cells_row_of.
Qed.

(** C1.  For a valid response with N players, when the render callback has
    run the players table has empty markup and exactly N appended rows; the
    rows are [tr] elements, in the order of the players, and the cells of
    each are the escaped name and the escaped skin of its player. *)
Theorem players_table_rows cfg d r st :
  decode d = Some r ->
  handles (page st) ->
  exists st' tbl,
    render cfg d st = (st', Normal tt) /\
    elements (page st') !! players_table = Some tbl /\
    node_html tbl = "" /\
    length (node_appended tbl) = length (players r) /\
    Forall2
      (fun row p =>
         node_tag row = "tr" /\
         node_appended row = [] /\
         node_html row
         = "<td>" +:+ escape (player_name p) +:+ "</td><td>"
           +:+ escape (player_skin p) +:+ "</td>" /\
         row_cells (node_html row)
         = Some [escape (player_name p); escape (player_skin p)])
      (node_appended tbl) (players r).
Proof.
  intros Hd Hh. destruct (valid_table cfg d r st Hd Hh) as (tag & Hr & Ht).
  eexists _, (Node tag "" (row_of <$> players r)).
  split; [exact Hr|]. split; [exact Ht|]. split; [reflexivity|].
  simpl. split; [by rewrite length_fmap | apply rows_read].
Qed.

Lemma players_table_rows_witness :
  exists st' tbl,
    render sample_cfg sample_response sample_state = (st', Normal tt) /\
    elements (page st') !! players_table = Some tbl /\
    node_html tbl = "" /\
    length (node_appended tbl) = length (players sample_decoded) /\
    Forall2
      (fun row p =>
         node_tag row = "tr" /\
         node_appended row = [] /\
         node_html row
         = "<td>" +:+ escape (player_name p) +:+ "</td><td>"
           +:+ escape (player_skin p) +:+ "</td>" /\
         row_cells (node_html row)
         = Some [escape (player_name p); escape (player_skin p)])
      (node_appended tbl) (players sample_decoded).
Proof.
  apply (players_table_rows sample_cfg sample_response sample_decoded sample_state).
  - reflexivity.
  - exact sample_handles.
Defined.

(** C4.  For a valid response, every cell of every rendered row is the
    escaped field of its player and holds no [<], [>] or double quote, and
    no [&] that does not start an entity; so it is whenever the field
    contains one of these characters. *)
Theorem rendered_cells_escaped cfg d r st :
  decode d = Some r ->
  handles (page st) ->
  exists st' tbl,
    render cfg d st = (st', Normal tt) /\
    elements (page st') !! players_table = Some tbl /\
    Forall2
      (fun row p =>
         exists c1 c2,
           row_cells (node_html row) = Some [c1; c2] /\
           c1 = escape (player_name p) /\ no_raw_special c1 = true /\
           c2 = escape (player_skin p) /\ no_raw_special c2 = true)
      (node_appended tbl) (players r).
Proof.
  intros Hd Hh. destruct (valid_table cfg d r st Hd Hh) as (tag & Hr & Ht).
  eexists _, (Node tag "" (row_of <$> players r)).
  split; [exact Hr|]. split; [exact Ht|]. simpl.
  eapply Forall2_impl; [apply rows_read|].
  intros row p (_ & _ & _ & Hc). simpl in Hc.
  exists (escape (player_name p)), (escape (player_skin p)).
  auto using no_raw_special_escape.
Qed.

Lemma rendered_cells_escaped_witness :
  exists st' tbl,
    render sample_cfg sample_response sample_state = (st', Normal tt) /\
    elements (page st') !! players_table = Some tbl /\
    Forall2
      (fun row p =>
         exists c1 c2,
           row_cells (node_html row) = Some [c1; c2] /\
           c1 = escape (player_name p) /\ no_raw_special c1 = true /\
           c2 = escape (player_skin p) /\ no_raw_special c2 = true)
      (node_appended tbl) (players sample_decoded).
Proof.
  apply (rendered_cells_escaped sample_cfg sample_response sample_decoded sample_state).
  - reflexivity.
  - exact sample_handles.
Defined.

(** ** C2: the background *)

(** C2.  An image that is a non-empty text other than ["None"] sets the
    body's background image to [url('{static_dir}/img/{image}')]; the image
    ["None"], the empty image and an absent image ([undefined] or [null])
    leave the state as it is. *)
Theorem update_background_rule cfg st image :
  image <> "" ->
  image <> "None" ->
  update_background cfg (VStr image) st
  = (State (Document (elements (page st))
                     (<[background_image :=
                          "url('" +:+ static_dir cfg +:+ "/img/" +:+ image +:+ "')"]>
                        (body_style (page st))))
           (log st ++ [ESetStyle background_image
                         ("url('" +:+ static_dir cfg +:+ "/img/" +:+ image +:+ "')")]),
     Normal tt)
  /\ update_background cfg (VStr "None") st = (st, Normal tt)
  /\ update_background cfg (VStr "") st = (st, Normal tt)
  /\ update_background cfg VUndefined st = (st, Normal tt)
  /\ update_background cfg VNull st = (st, Normal tt).
Proof.
  intros Hne Hnn. split; [|by repeat split].
  rewrite update_background_text. unfold paint, paint_log, shown.
  apply String.eqb_neq in Hne, Hnn. by rewrite Hne, Hnn.
Qed.

Lemma update_background_rule_witness :
  update_background sample_cfg (VStr "town.jpg") sample_state
  = (State (Document (elements sample_document)
                     (<[background_image := "url('/static/img/town.jpg')"]>
                        (body_style sample_document)))
           [ESetStyle background_image "url('/static/img/town.jpg')"],
     Normal tt)
  /\ update_background sample_cfg (VStr "None") sample_state = (sample_state, Normal tt)
  /\ update_background sample_cfg (VStr "") sample_state = (sample_state, Normal tt)
  /\ update_background sample_cfg VUndefined sample_state = (sample_state, Normal tt)
  /\ update_background sample_cfg VNull sample_state = (sample_state, Normal tt).
Proof.
  apply (update_background_rule sample_cfg sample_state "town.jpg").
  - discriminate.
  - discriminate.
Defined.

(** ** C3: rendering twice *)

Lemma handles_rendered cfg r d : handles d -> handles (rendered_page cfg r d).
Proof.
  intros ([n1 H1] & [n2 H2] & [n3 H3]). unfold handles, rendered_page. simpl.
  rewrite !lookup_with_content. repeat case_decide; try done.
  rewrite H1, H2, H3. simpl. eauto.
Qed.

Lemma paint_paint cfg image style :
  paint cfg image (paint cfg image style) = paint cfg image style.
Proof. unfold paint. destruct (shown image); [apply insert_insert_eq|done]. Qed.

Lemma rendered_twice cfg r d :
  rendered_page cfg r (rendered_page cfg r d) = rendered_page cfg r d.
Proof.
  unfold rendered_page at 1 3. simpl. rewrite paint_paint. f_equal.
  apply map_eq. intros j. rewrite !lookup_with_content.
  repeat case_decide; subst; try done; by destruct (elements d !! _).
Qed.

Lemma rendered_table cfg r d n :
  elements d !! players_table = Some n ->
  elements (rendered_page cfg r d) !! players_table
  = Some (Node (node_tag n) "" (row_of <$> players r)).
Proof.
  intros H. simpl. rewrite !lookup_with_content.
  repeat case_decide; try done. by rewrite H.
Qed.

(** C3.  Rendering the same valid response twice in a row leaves, after the
    second run, the players table the first run left: the N rows of the
    response and nothing of the run before.  The whole page is the same
    after both runs. *)
Theorem render_twice_same_table cfg d r st :
  decode d = Some r ->
  handles (page st) ->
  exists st1 st2 tag,
    render cfg d st = (st1, Normal tt) /\
    render cfg d st1 = (st2, Normal tt) /\
    elements (page st1) !! players_table = Some (Node tag "" (row_of <$> players r)) /\
    elements (page st2) !! players_table = Some (Node tag "" (row_of <$> players r)) /\
    page st2 = page st1.
Proof.
  intros Hd Hh. pose proof Hh as (_ & _ & [n3 H3]).
  pose proof (handles_rendered cfg r _ Hh) as Hh'.
  eexists _, _, (node_tag n3).
  split; [apply (render_valid _ _ _ _ Hd Hh)|].
  split; [apply (render_valid _ _ _ _ Hd); exact Hh'|].
  cbn [page]. rewrite rendered_twice.
  split; [by apply rendered_table|]. split; [by apply rendered_table|]. reflexivity.
Qed.

Lemma render_twice_same_table_witness :
  exists st1 st2 tag,
    render sample_cfg sample_response sample_state = (st1, Normal tt) /\
    render sample_cfg sample_response st1 = (st2, Normal tt) /\
    elements (page st1) !! players_table
    = Some (Node tag "" (row_of <$> players sample_decoded)) /\
    elements (page st2) !! players_table
    = Some (Node tag "" (row_of <$> players sample_decoded)) /\
    page st2 = page st1.
Proof.
  apply (render_twice_same_table sample_cfg sample_response sample_decoded sample_state).
  - reflexivity.
  - exact sample_handles.
Defined.

(** ** C5: the order of the updates *)

(** C5, as stated, fails: with an image to show and a player to list, the
    body's style is written before the row is appended. *)
Lemma background_not_last :
  log (render sample_cfg sample_response sample_state).1
  = [ESetInnerHTML map_title "St Mere <b>Eglise</b>";
     ESetInnerHTML server_name "Test <i>Server</i>";
     ESetInnerHTML players_table "";
     ESetStyle background_image "url('/static/img/town.jpg')";
     EAppendChild players_table (Node "tr" "<td>A&lt;b&gt;</td><td>us</td>" []);
     EAppendChild players_table (Node "tr" "<td>R&amp;D</td><td>ge</td>" [])]
  /\ background_last (log (render sample_cfg sample_response sample_state).1) = false.
Proof. split; vm_compute; reflexivity. Qed.

(** C5, amended.  For a valid response the render writes the map title, then
    the server name, then clears the players table, then updates the
    background (a write to the body's style when the image is shown, nothing
    otherwise), and then appends one row per player, in order. *)
Theorem render_order cfg d r st :
  decode d = Some r ->
  handles (page st) ->
  exists st',
    render cfg d st = (st', Normal tt) /\
    log st' =
      log st
      ++ [ESetInnerHTML map_title (map_name r);
          ESetInnerHTML server_name (servername r);
          ESetInnerHTML players_table ""]
      ++ (if shown (map_image r)
          then [ESetStyle background_image (image_url cfg (map_image r))]
          else [])
      ++ (EAppendChild players_table <$> (row_of <$> players r)).
Proof.
  intros Hd Hh. eexists. split; [apply (render_valid _ _ _ _ Hd Hh)|].
  reflexivity.
Qed.

Lemma render_order_witness :
  exists st',
    render sample_cfg sample_response sample_state = (st', Normal tt) /\
    log st' =
      log sample_state
      ++ [ESetInnerHTML map_title (map_name sample_decoded);
          ESetInnerHTML server_name (servername sample_decoded);
          ESetInnerHTML players_table ""]
      ++ (if shown (map_image sample_decoded)
          then [ESetStyle background_image
                  (image_url sample_cfg (map_image sample_decoded))]
          else [])
      ++ (EAppendChild players_table <$> (row_of <$> players sample_decoded)).
Proof.
  apply (render_order sample_cfg sample_response sample_decoded sample_state).
  - reflexivity.
  - exact sample_handles.
Defined.

(** ** C6: the title and the server name *)

Lemma refresh_response cfg status d st :
  refresh cfg (Response status (Some d)) st
  = render cfg d (State (page st) (log st ++ [EFetch (api_url cfg +:+ "/server_info")])).
Proof. reflexivity. Qed.

Lemma rendered_title cfg r d n :
  elements d !! map_title = Some n ->
  elements (rendered_page cfg r d) !! map_title
  = Some (Node (node_tag n) (map_name r) []).
Proof.
  intros H. simpl. rewrite !lookup_with_content.
  repeat case_decide; try done. by rewrite H.
Qed.

Lemma rendered_server_name cfg r d n :
  elements d !! server_name = Some n ->
  elements (rendered_page cfg r d) !! server_name
  = Some (Node (node_tag n) (servername r) []).
Proof.
  intros H. simpl. rewrite !lookup_with_content.
  repeat case_decide; try done. by rewrite H.
Qed.

(** C6.  A refresh that receives a valid response, whatever its status,
    leaves the map-title element with the map name as its markup and the
    server-name element with the server name as its markup, both exactly as
    they came (not passed through the escaping helper) and with nothing
    appended. *)
Theorem title_and_server_name_raw cfg status d r st :
  decode d = Some r ->
  handles (page st) ->
  exists st' tag1 tag2,
    refresh cfg (Response status (Some d)) st = (st', Normal tt) /\
    elements (page st') !! map_title = Some (Node tag1 (map_name r) []) /\
    elements (page st') !! server_name = Some (Node tag2 (servername r) []).
Proof.
  intros Hd Hh. pose proof Hh as ([n1 H1] & [n2 H2] & _).
  rewrite refresh_response. eexists _, (node_tag n1), (node_tag n2).
  split; [apply (render_valid _ _ _ _ Hd); exact Hh|].
  cbn [page]. split; [by apply rendered_title | by apply rendered_server_name].
Qed.

Lemma title_and_server_name_raw_witness :
  exists st' tag1 tag2,
    refresh sample_cfg (Response 200 (Some sample_response)) sample_state
    = (st', Normal tt) /\
    elements (page st') !! map_title
    = Some (Node tag1 (map_name sample_decoded) []) /\
    elements (page st') !! server_name
    = Some (Node tag2 (servername sample_decoded) []).
Proof.
  apply (title_and_server_name_raw sample_cfg 200 sample_response sample_decoded
           sample_state).
  - reflexivity.
  - exact sample_handles.
Defined.

(** ** C7: a fetch that fails *)

(** C7, as stated, fails: a response with status 500 whose body is a valid
    response is rendered like any other. *)
Lemma status_500_is_rendered :
  listed_failure (Response 500 (Some sample_response)) = true
  /\ (refresh sample_cfg (Response 500 (Some sample_response)) sample_state).2
     = Normal tt
  /\ elements (page (refresh sample_cfg (Response 500 (Some sample_response))
                       sample_state).1) !! map_title
     = Some (Node "h2" "St Mere <b>Eglise</b>" [])
  /\ page (refresh sample_cfg (Response 500 (Some sample_response)) sample_state).1
     <> page sample_state.
Proof.
  split; [reflexivity|]. split; [vm_compute; reflexivity|].
  split; [vm_compute; reflexivity|].
  intros H. apply (f_equal (fun d => elements d !! map_title)) in H.
  vm_compute in H. discriminate.
Qed.

(** C7, amended.  When no response comes or the body is not JSON, the
    refresh sends its one request and does nothing else: the page is the one
    before, the chain is rejected and the rejection stays unhandled.  A
    status is never a failure: a body that parses is handed to the render
    callback whatever the status. *)
Theorem failed_fetch_leaves_page cfg r w :
  (r = NetworkError \/ exists status, r = Response status None) ->
  (exists e,
     run (refresh cfg r) w
     = (World (State (page (now w))
                     (log (now w) ++ [EFetch (api_url cfg +:+ "/server_info")]))
              (unhandled w ++ [e]),
        None))
  /\ forall status d st,
       refresh cfg (Response status (Some d)) st
       = render cfg d
           (State (page st) (log st ++ [EFetch (api_url cfg +:+ "/server_info")])).
Proof.
  intros H. split; [|intros; apply refresh_response].
  destruct H as [-> | [status ->]]; eexists; reflexivity.
Qed.

Lemma failed_fetch_leaves_page_witness :
  (exists e,
     run (refresh sample_cfg (Response 502 None)) sample_world
     = (World (State (page (now sample_world))
                     (log (now sample_world)
                      ++ [EFetch (api_url sample_cfg +:+ "/server_info")]))
              (unhandled sample_world ++ [e]),
        None))
  /\ forall status d st,
       refresh sample_cfg (Response status (Some d)) st
       = render sample_cfg d
           (State (page st)
                  (log st ++ [EFetch (api_url sample_cfg +:+ "/server_info")])).
Proof.
  apply (failed_fetch_leaves_page sample_cfg (Response 502 None) sample_world).
  right. exists 502%Z. reflexivity.
Defined.

(** ** C8: two refreshes in flight *)

Lemma paint_over cfg late early style :
  shown late = true ->
  paint cfg late (paint cfg early style) = paint cfg late style.
Proof.
  intros H. unfold paint. rewrite H.
  destruct (shown early); [apply insert_insert_eq|done].
Qed.

Lemma rendered_over cfg late early d :
  elements (rendered_page cfg late (rendered_page cfg early d))
  = elements (rendered_page cfg late d).
Proof.
  simpl. apply map_eq. intros j. rewrite !lookup_with_content.
  repeat case_decide; subst; try done; by destruct (elements d !! _).
Qed.

(** C8, as stated, fails: when the response that arrives last has no image,
    the background is the one the earlier response set, which rendering the
    last response alone would not give. *)
Lemma stale_background_survives :
  body_style
    (page (now (two_refreshes sample_cfg
                  (Response 200 (Some sample_response))
                  (Response 200 (Some sample_response_no_image))
                  true sample_world))) !! background_image
  = Some "url('/static/img/town.jpg')"
  /\ body_style
       (page (now (run (refresh sample_cfg
                          (Response 200 (Some sample_response_no_image)))
                     sample_world).1)) !! background_image
     = None
  /\ page (now (two_refreshes sample_cfg
                  (Response 200 (Some sample_response))
                  (Response 200 (Some sample_response_no_image))
                  true sample_world))
     <> page (now (run (refresh sample_cfg
                          (Response 200 (Some sample_response_no_image)))
                     sample_world).1).
Proof.
  split; [vm_compute; reflexivity|]. split; [vm_compute; reflexivity|].
  intros H. apply (f_equal (fun d => body_style d !! background_image)) in H.
  vm_compute in H. discriminate.
Qed.

(** C8, amended.  Two refreshes are started before either response is
    there, both responses are valid and arrive in either order.  Both
    callbacks run to their end, the earlier arrival first.  The map title,
    the server name and the players table are then those the response that
    arrived last gives on its own, whichever call it answers.  The
    background is the last arrival's when its image is shown; otherwise it
    is what the earlier arrival left. *)
Theorem later_response_wins cfg s1 s2 d1 d2 r1 r2 first_arrives_first w :
  decode d1 = Some r1 ->
  decode d2 = Some r2 ->
  handles (page (now w)) ->
  let final :=
    two_refreshes cfg (Response s1 (Some d1)) (Response s2 (Some d2))
      first_arrives_first w in
  let late := if first_arrives_first then r2 else r1 in
  let early := if first_arrives_first then r1 else r2 in
  let late_alone :=
    (run (refresh cfg (if first_arrives_first
                       then Response s2 (Some d2) else Response s1 (Some d1))) w).1 in
  unhandled final = unhandled w /\
  log (now final)
  = (log (now w)
     ++ [EFetch (api_url cfg +:+ "/server_info"); EFetch (api_url cfg +:+ "/server_info")])
    ++ rendered_log cfg early ++ rendered_log cfg late /\
  elements (page (now final)) = elements (page (now late_alone)) /\
  body_style (page (now final))
  = paint cfg (map_image late) (paint cfg (map_image early) (body_style (page (now w)))) /\
  (shown (map_image late) = true -> page (now final) = page (now late_alone)).
Proof.
  intros Hd1 Hd2 Hh final late early late_alone.
  assert (Hfinal : final
    = World (State (rendered_page cfg late (rendered_page cfg early (page (now w))))
                   (((log (now w) ++ [EFetch (api_url cfg +:+ "/server_info")])
                     ++ [EFetch (api_url cfg +:+ "/server_info")])
                    ++ rendered_log cfg early ++ rendered_log cfg late))
            (unhandled w)).
  { subst final late early. unfold two_refreshes.
    change (run (update_info_page cfg) w)
      with (World (State (page (now w))
                         (log (now w) ++ [EFetch (api_url cfg +:+ "/server_info")]))
                  (unhandled w),
            Some (settle (render cfg))).
    cbv beta iota.
    match goal with |- context [run (update_info_page cfg) ?w1] =>
      change (run (update_info_page cfg) w1)
        with (World (State (page (now w))
                       ((log (now w) ++ [EFetch (api_url cfg +:+ "/server_info")])
                        ++ [EFetch (api_url cfg +:+ "/server_info")]))
                    (unhandled w),
              Some (settle (render cfg)))
    end.
    cbv beta iota.
    destruct first_arrives_first; unfold run, settle; cbn [now unhandled fst].
    - erewrite (render_valid cfg d1 r1) by (exact Hd1 || exact Hh).
      cbn [now unhandled fst page log].
      erewrite (render_valid cfg d2 r2)
        by (exact Hd2 || (apply handles_rendered; exact Hh)).
      cbn [now unhandled fst page log]. by rewrite <- !app_assoc.
    - erewrite (render_valid cfg d2 r2) by (exact Hd2 || exact Hh).
      cbn [now unhandled fst page log].
      erewrite (render_valid cfg d1 r1)
        by (exact Hd1 || (apply handles_rendered; exact Hh)).
      cbn [now unhandled fst page log]. by rewrite <- !app_assoc. }
  assert (Hlate : late_alone
    = World (State (rendered_page cfg late (page (now w)))
                   ((log (now w) ++ [EFetch (api_url cfg +:+ "/server_info")])
                    ++ rendered_log cfg late))
            (unhandled w)).
  { subst late_alone late. unfold run.
    destruct first_arrives_first; rewrite refresh_response.
    - by erewrite (render_valid cfg d2 r2) by (exact Hd2 || exact Hh).
    - by erewrite (render_valid cfg d1 r1) by (exact Hd1 || exact Hh). }
  rewrite Hfinal, Hlate. cbn [now unhandled page log].
  split; [reflexivity|]. split; [by rewrite <- !app_assoc|].
  split; [apply rendered_over|]. split; [reflexivity|].
  intros Hs. unfold rendered_page at 1 3. f_equal.
  - apply rendered_over.
  - cbn [body_style rendered_page]. by apply paint_over.
Qed.

Lemma later_response_wins_witness :
  let final :=
    two_refreshes sample_cfg (Response 200 (Some sample_response_no_image))
      (Response 200 (Some sample_response)) false sample_world in
  let late := sample_decoded_no_image in
  let early := sample_decoded in
  let late_alone :=
    (run (refresh sample_cfg (Response 200 (Some sample_response_no_image)))
       sample_world).1 in
  unhandled final = unhandled sample_world /\
  log (now final)
  = (log (now sample_world)
     ++ [EFetch (api_url sample_cfg +:+ "/server_info");
         EFetch (api_url sample_cfg +:+ "/server_info")])
    ++ rendered_log sample_cfg early ++ rendered_log sample_cfg late /\
  elements (page (now final)) = elements (page (now late_alone)) /\
  body_style (page (now final))
  = paint sample_cfg (map_image late)
      (paint sample_cfg (map_image early) (body_style (page (now sample_world)))) /\
  (shown (map_image late) = true -> page (now final) = page (now late_alone)).
Proof.
  apply (later_response_wins sample_cfg 200 200 sample_response_no_image
           sample_response sample_decoded_no_image sample_decoded false sample_world).
  - reflexivity.
  - reflexivity.
  - exact sample_handles.
Defined.

(** ** C9: what a refresh leaves alone *)

Lemma untouched_refl st : untouched st st.
Proof. by repeat split. Qed.

Lemma untouched_trans st1 st2 st3 :
  untouched st1 st2 -> untouched st2 st3 -> untouched st1 st3.
Proof.
  intros (E1 & T1 & S1) (E2 & T2 & S2). repeat split.
  - intros id ? ? ?. by rewrite E2, E1.
  - intros id. by rewrite T2, T1.
  - intros property ?. by rewrite S2, S1.
Qed.

Lemma keeps_lift {A} (o : outcome A) : keeps (lift o).
Proof. intros st. apply untouched_refl. Qed.

Lemma keeps_ret {A} (a : A) : keeps (ret a).
Proof. intros st. apply untouched_refl. Qed.

Lemma keeps_throw {A} (e : exn) : keeps (@throw A e).
Proof. intros st. apply untouched_refl. Qed.

Lemma keeps_bind {A B} (m : M A) (k : A -> M B) :
  keeps m -> (forall a, keeps (k a)) -> keeps (bind m k).
Proof.
  intros Hm Hk st. unfold bind. specialize (Hm st).
  destruct (m st) as [st' [a|e]]; [|exact Hm].
  eapply untouched_trans; [exact Hm | apply Hk].
Qed.

Lemma is_handle_map_title : is_handle map_title.
Proof. by left. Qed.

Lemma is_handle_server_name : is_handle server_name.
Proof. by right; left. Qed.

Lemma is_handle_players_table : is_handle players_table.
Proof. by right; right. Qed.

Lemma keeps_set_innerHTML id v : is_handle id -> keeps (set_innerHTML id v).
Proof.
  intros Hid st. unfold set_innerHTML.
  destruct (elements (page st) !! id) as [[tag html kids]|] eqn:Hl;
    [|apply untouched_refl].
  destruct (dom_string v); [|apply untouched_refl].
  unfold untouched. simpl. split; [|split; [|done]].
  - intros j ? ? ?. apply lookup_insert_ne. destruct Hid as [-> | [-> | ->]]; done.
  - intros j. destruct (decide (id = j)) as [<-|].
    + by rewrite lookup_insert_eq, Hl.
    + by rewrite lookup_insert_ne.
Qed.

Lemma keeps_appendChild id child : is_handle id -> keeps (appendChild id child).
Proof.
  intros Hid st. unfold appendChild.
  destruct (elements (page st) !! id) as [[tag html kids]|] eqn:Hl;
    [|apply untouched_refl].
  unfold untouched. simpl. split; [|split; [|done]].
  - intros j ? ? ?. apply lookup_insert_ne. destruct Hid as [-> | [-> | ->]]; done.
  - intros j. destruct (decide (id = j)) as [<-|].
    + by rewrite lookup_insert_eq, Hl.
    + by rewrite lookup_insert_ne.
Qed.

Lemma keeps_set_backgroundImage text : keeps (set_backgroundImage text).
Proof.
  intros st. unfold untouched. simpl. split; [done|split; [done|]].
  intros property ?. by apply lookup_insert_ne.
Qed.

Lemma keeps_for_each items callback :
  (forall x, keeps (callback x)) -> keeps (for_each items callback).
Proof.
  intros H. induction items as [|x items IH]; simpl; [apply keeps_ret|].
  apply keeps_bind; [apply H | intros _; exact IH].
Qed.

Lemma keeps_call_forEach v callback :
  (forall x, keeps (callback x)) -> keeps (call_forEach v callback).
Proof.
  intros H. unfold call_forEach. apply keeps_bind; [apply keeps_lift|].
  intros f. destruct f, v; try apply keeps_throw. by apply keeps_for_each.
Qed.

Create HintDb keeps.

#[local] Hint Resolve keeps_lift keeps_ret keeps_throw
  is_handle_map_title is_handle_server_name is_handle_players_table
  keeps_set_innerHTML keeps_appendChild keeps_set_backgroundImage : keeps.

(** One statement of a sequence: the first part by the hints, the rest left. *)
Ltac keeps_step := apply keeps_bind; [solve [auto with keeps] | intros ?].

Section Frame.

Variable cfg : config.

Lemma keeps_update_background image : keeps (update_background cfg image).
Proof.
  unfold update_background. destruct (truthy image); [|auto with keeps].
  keeps_step. destruct a; [|auto with keeps].
  keeps_step. auto with keeps.
Qed.

Lemma keeps_add_row player : keeps (add_row player).
Proof. unfold add_row. repeat keeps_step. auto with keeps. Qed.

Lemma keeps_render data : keeps (render cfg data).
Proof.
  unfold render.
  repeat first
    [ apply keeps_call_forEach, keeps_add_row
    | keeps_step
    | apply keeps_bind; [apply keeps_update_background | intros _] ].
Qed.

Lemma keeps_refresh r : keeps (refresh cfg r).
Proof.
  intros st.
  set (sent := State (page st) (log st ++ [EFetch (api_url cfg +:+ "/server_info")])).
  assert (Hr : refresh cfg r st = settle (render cfg) r sent) by reflexivity.
  rewrite Hr. apply (untouched_trans st sent).
  - by repeat split.
  - destruct r as [|status [d|]]; simpl;
      [apply untouched_refl | apply keeps_render | apply untouched_refl].
Qed.

End Frame.

(** C9.  A refresh, whatever comes back and whether or not the callback
    runs to its end, leaves every element other than the three handles as it
    was, keeps every element's tag, no element coming or going, and leaves
    every style declaration of the body other than the background image as
    it was; [update_background] leaves all elements as they were and every
    other style declaration too. *)
Theorem refresh_frame cfg r image st id property :
  id <> map_title ->
  id <> server_name ->
  id <> players_table ->
  property <> background_image ->
  elements (page (refresh cfg r st).1) !! id = elements (page st) !! id /\
  body_style (page (refresh cfg r st).1) !! property
  = body_style (page st) !! property /\
  (forall j, node_tag <$> (elements (page (refresh cfg r st).1) !! j)
             = node_tag <$> (elements (page st) !! j)) /\
  elements (page (update_background cfg image st).1) = elements (page st) /\
  body_style (page (update_background cfg image st).1) !! property
  = body_style (page st) !! property.
Proof.
  intros H1 H2 H3 Hp.
  destruct (keeps_refresh cfg r st) as (E & T & S).
  destruct (keeps_update_background cfg image st) as (_ & _ & S').
  split; [by apply E|]. split; [by apply S|]. split; [exact T|].
  split; [|by apply S'].
  unfold update_background. destruct (truthy image); [|reflexivity].
  unfold bind, lift. destruct (ne_None image) as [[|]|]; try reflexivity.
  destruct (to_string image); reflexivity.
Qed.

Lemma refresh_frame_witness :
  elements (page (refresh sample_cfg (Response 200 (Some sample_response))
                    sample_state).1) !! "footer"
  = elements (page sample_state) !! "footer" /\
  body_style (page (refresh sample_cfg (Response 200 (Some sample_response))
                      sample_state).1) !! "color"
  = body_style (page sample_state) !! "color" /\
  (forall j,
     node_tag <$> (elements (page (refresh sample_cfg
                                     (Response 200 (Some sample_response))
                                     sample_state).1) !! j)
     = node_tag <$> (elements (page sample_state) !! j)) /\
  elements (page (update_background sample_cfg (VStr "town.jpg") sample_state).1)
  = elements (page sample_state) /\
  body_style (page (update_background sample_cfg (VStr "town.jpg") sample_state).1)
    !! "color"
  = body_style (page sample_state) !! "color".
Proof.
  apply (refresh_frame sample_cfg (Response 200 (Some sample_response))
           (VStr "town.jpg") sample_state "footer" "color").
  - discriminate.
  - discriminate.
  - discriminate.
  - discriminate.
Defined.

(** ** C10: a response that parses but has the wrong shape *)

Lemma call_forEach_not_array v callback st :
  (forall items, v <> VArr items) ->
  call_forEach v callback st = (st, Throw TypeError).
Proof.
  intros H. unfold call_forEach, bind, lift.
  destruct v as [| | | | |items| |]; simpl; try reflexivity.
  - by destruct (H items).
  - by destruct (match assoc "forEach" fields with Some x => x | None => VUndefined end).
Qed.

(** With a valid server name and map, the render reaches the players with
    the title, the server name, the cleared table and the background done. *)
Lemma render_head cfg fields mfields sn mn mi st :
  assoc "servername" fields = Some (VStr sn) ->
  assoc "map" fields = Some (VObj mfields) ->
  assoc "name" mfields = Some (VStr mn) ->
  assoc "image" mfields = Some (VStr mi) ->
  handles (page st) ->
  render cfg (VObj fields) st
  = call_forEach
      (match assoc "players" fields with Some x => x | None => VUndefined end)
      add_row
      (State (rendered_page cfg (head_only sn mn mi) (page st))
             (log st ++ rendered_log cfg (head_only sn mn mi))).
Proof.
  intros Hsn Hm Hmn Hmi ([n1 H1] & [n2 H2] & [n3 H3]).
  destruct ids_distinct as (D12 & D13 & D23).
  unfold render, bind at 1, lift at 1, get. rewrite Hm.
  unfold bind at 1, lift at 1. rewrite Hmn.
  unfold bind at 1. rewrite (set_innerHTML_text _ _ _ _ H1).
  unfold bind at 1, lift at 1. rewrite Hsn.
  unfold bind at 1. erewrite set_innerHTML_text
    by (simpl; rewrite lookup_insert_ne by done; exact H2).
  unfold bind at 1. erewrite set_innerHTML_text
    by (simpl; rewrite !lookup_insert_ne by done; exact H3).
  unfold bind at 1, lift at 1. unfold bind at 1, lift at 1. rewrite Hmi.
  unfold bind at 1. rewrite update_background_text.
  unfold bind at 1, lift at 1.
  unfold rendered_page, rendered_log, head_only. cbn [servername map_name map_image players].
  rewrite (with_content_lookup _ _ _ _ _ H1).
  erewrite (with_content_lookup _ server_name)
    by (rewrite lookup_insert_ne by done; exact H2).
  erewrite (with_content_lookup _ players_table)
    by (rewrite !lookup_insert_ne by done; exact H3).
  cbn [page log elements body_style fmap list_fmap].
  rewrite app_nil_r, <- !app_assoc. reflexivity.
Qed.

(** C10, as stated, fails: with [map] missing the callback throws at its
    first statement and nothing at all is updated. *)
Lemma no_map_updates_nothing :
  render sample_cfg sample_response_no_map sample_state
  = (sample_state, Throw TypeError).
Proof. reflexivity. Qed.

(** C10, amended.  The render is not atomic for a response that parses but
    has the wrong shape.  With [players] missing or not an array (and a
    valid server name and map) the callback throws after the map title, the
    server name, the cleared players table and the background have taken the
    new response, and no row is appended.  With [map] missing or [null] the
    callback throws at its first statement and the state is the one
    before. *)
Theorem malformed_response_partial cfg fields st :
  handles (page st) ->
  (forall mfields sn mn mi,
     assoc "servername" fields = Some (VStr sn) ->
     assoc "map" fields = Some (VObj mfields) ->
     assoc "name" mfields = Some (VStr mn) ->
     assoc "image" mfields = Some (VStr mi) ->
     (forall items, assoc "players" fields <> Some (VArr items)) ->
     render cfg (VObj fields) st
     = (State (rendered_page cfg (head_only sn mn mi) (page st))
              (log st
               ++ [ESetInnerHTML map_title mn;
                   ESetInnerHTML server_name sn;
                   ESetInnerHTML players_table ""]
               ++ (if shown mi
                   then [ESetStyle background_image (image_url cfg mi)]
                   else [])),
        Throw TypeError)
     /\ exists tag,
          elements (rendered_page cfg (head_only sn mn mi) (page st)) !! players_table
          = Some (Node tag "" []))
  /\ (assoc "map" fields = None \/ assoc "map" fields = Some VNull ->
      render cfg (VObj fields) st = (st, Throw TypeError)).
Proof.
  intros Hh. split.
  - intros mfields sn mn mi Hsn Hm Hmn Hmi Hpl. split.
    + rewrite (render_head _ _ _ _ _ _ _ Hsn Hm Hmn Hmi Hh).
      rewrite call_forEach_not_array.
      * unfold rendered_log, head_only, paint_log. simpl. by rewrite app_nil_r.
      * intros items E. destruct (assoc "players" fields) as [x|] eqn:Hx; [|done].
        subst x. by destruct (Hpl items).
    + destruct Hh as (_ & _ & [n3 H3]). exists (node_tag n3).
      by apply rendered_table.
  - intros [H|H]; unfold render, bind, lift, get; by rewrite H.
Qed.

Lemma malformed_response_partial_witness :
  (render sample_cfg (VObj sample_response_no_players) sample_state
   = (State (rendered_page sample_cfg (head_only "Test Server" "Carentan" "town.jpg")
               (page sample_state))
            [ESetInnerHTML map_title "Carentan";
             ESetInnerHTML server_name "Test Server";
             ESetInnerHTML players_table "";
             ESetStyle background_image "url('/static/img/town.jpg')"],
      Throw TypeError)
   /\ exists tag,
        elements (rendered_page sample_cfg (head_only "Test Server" "Carentan" "town.jpg")
                    (page sample_state)) !! players_table
        = Some (Node tag "" []))
  /\ render sample_cfg sample_response_no_map sample_state
     = (sample_state, Throw TypeError).
Proof.
  split.
  - apply (proj1 (malformed_response_partial sample_cfg sample_response_no_players
                    sample_state sample_handles)
             [("name", VStr "Carentan"); ("image", VStr "town.jpg")]
             "Test Server" "Carentan" "town.jpg").
    + reflexivity.
    + reflexivity.
    + reflexivity.
    + reflexivity.
    + intros items. discriminate.
  - apply (proj2 (malformed_response_partial sample_cfg
                    [("servername", VStr "Test Server");
                     ("players", VArr [player_value "A" "us"])]
                    sample_state sample_handles)).
    left. reflexivity.
Defined.

(** ** Beyond valid responses: what makes the callback end *)

Lemma get_throws v k e : get v k = Throw e -> e = TypeError.
Proof. destruct v; simpl; congruence. Qed.

Lemma bind_normal {A B} (m : M A) (k : A -> M B) st st' b :
  bind m k st = (st', Normal b) ->
  exists a st1, m st = (st1, Normal a) /\ k a st1 = (st', Normal b).
Proof.
  unfold bind. destruct (m st) as [st1 [a|e]]; [|discriminate].
  intros H. by exists a, st1.
Qed.

Lemma lift_normal {A} (o : outcome A) st st' a :
  lift o st = (st', Normal a) -> o = Normal a /\ st' = st.
Proof. unfold lift. intros H. injection H as <- ->. done. Qed.


Lemma set_innerHTML_normal id v st st' :
  set_innerHTML id v st = (st', Normal tt) ->
  exists n s,
    elements (page st) !! id = Some n /\
    dom_string v = Normal s /\
    st' = State (Document (<[id := Node (node_tag n) s []]> (elements (page st)))
                          (body_style (page st)))
                (log st ++ [ESetInnerHTML id s]).
Proof.
  unfold set_innerHTML.
  destruct (elements (page st) !! id) as [[tag html kids]|] eqn:Hl; [|discriminate].
  destruct (dom_string v) as [s|]; [|discriminate].
  intros H. injection H as <-. by exists (Node tag html kids), s.
Qed.

Lemma update_background_elements cfg image st :
  elements (page (update_background cfg image st).1) = elements (page st).
Proof.
  unfold update_background. destruct (truthy image); [|reflexivity].
  unfold bind, lift. destruct (ne_None image) as [[|]|]; try reflexivity.
  destruct (to_string image); reflexivity.
Qed.

Lemma call_escape_text v :
  call_escape v
  = match v with
    | VStr t => Normal (escape t)
    | _ => Throw TypeError
    end.
Proof.
  destruct v as [| | | | |?|fields|?]; try reflexivity.
  unfold call_escape, get, obind.
  by destruct (match assoc "escape" fields with Some x => x | None => VUndefined end).
Qed.

(** A row is added exactly for an object with a text [name] and a text
    [skin]; anything else throws before the table is touched. *)
Lemma add_row_normal p st st' :
  add_row p st = (st', Normal tt) -> is_Some (decode_player p).
Proof.
  unfold add_row, bind, lift, decode_player, field.
  destruct p as [| | | | |?|fields|?]; simpl;
    rewrite ?call_escape_text; try discriminate.
  destruct (assoc "name" fields) as [[]|]; simpl;
    rewrite ?call_escape_text; try discriminate.
  destruct (assoc "skin" fields) as [[]|]; simpl;
    rewrite ?call_escape_text; try discriminate.
  eauto.
Qed.

Lemma add_row_invalid p st :
  decode_player p = None -> add_row p st = (st, Throw TypeError).
Proof.
  unfold add_row, bind, lift, decode_player, field.
  destruct p as [| | | | |?|fields|?]; simpl;
    rewrite ?call_escape_text; try reflexivity.
  destruct (assoc "name" fields) as [[]|]; simpl;
    rewrite ?call_escape_text; try reflexivity.
  destruct (assoc "skin" fields) as [[]|]; simpl;
    rewrite ?call_escape_text; try reflexivity.
  discriminate.
Qed.

Lemma for_each_normal items : forall st st' tag html kids,
  for_each items add_row st = (st', Normal tt) ->
  elements (page st) !! players_table = Some (Node tag html kids) ->
  exists pls,
    mapM decode_player items = Some pls /\
    elements (page st') !! players_table
    = Some (Node tag html (kids ++ (row_of <$> pls))).
Proof.
  induction items as [|p items IH]; intros st st' tag html kids Hrun Hl.
  - injection Hrun as <-. exists []. by rewrite app_nil_r.
  - simpl in Hrun. apply bind_normal in Hrun as ([] & st1 & Hrow & Hrest).
    destruct (add_row_normal _ _ _ Hrow) as [pl Hp].
    erewrite add_row_valid in Hrow by eassumption. injection Hrow as <-.
    apply (IH _ _ tag html (kids ++ [row_of pl])) in Hrest as (pls & Hm & Ht);
      [|simpl; apply lookup_insert_eq].
    exists (pl :: pls). simpl. rewrite Hp. simpl. rewrite Hm. simpl.
    by rewrite <- app_assoc in Ht.
Qed.

(** X1.  Whenever the callback ends without throwing, whatever the body
    was, the three elements were in the document, [players] was an array of
    objects with a text [name] and a text [skin], and the players table holds
    exactly their rows, in order, and nothing else. *)
Theorem render_normal_end cfg d st st' :
  render cfg d st = (st', Normal tt) ->
  handles (page st) /\
  exists items pls tag,
    get d "players" = Normal (VArr items) /\
    mapM decode_player items = Some pls /\
    elements (page st') !! players_table = Some (Node tag "" (row_of <$> pls)).
Proof.
  intros H. unfold render in H.
  destruct ids_distinct as (D12 & D13 & D23).
  apply bind_normal in H as (m & s1 & Hm & H). apply lift_normal in Hm as [Hm ->].
  apply bind_normal in H as (nm & s2 & Hn & H). apply lift_normal in Hn as [Hn ->].
  apply bind_normal in H as ([] & s3 & Hs1 & H).
  apply set_innerHTML_normal in Hs1 as (n1 & t1 & L1 & _ & ->).
  apply bind_normal in H as (sv & s4 & Hsv & H). apply lift_normal in Hsv as [_ ->].
  apply bind_normal in H as ([] & s5 & Hs2 & H).
  apply set_innerHTML_normal in Hs2 as (n2 & t2 & L2 & _ & ->).
  apply bind_normal in H as ([] & s6 & Hs3 & H).
  apply set_innerHTML_normal in Hs3 as (n3 & t3 & L3 & Hd3 & ->).
  injection Hd3 as <-.
  apply bind_normal in H as (m' & s7 & Hm' & H). apply lift_normal in Hm' as [_ ->].
  apply bind_normal in H as (img & s8 & Hi & H). apply lift_normal in Hi as [_ ->].
  apply bind_normal in H as ([] & s9 & Hb & H).
  apply bind_normal in H as (ps & s10 & Hp & H). apply lift_normal in Hp as [Hp ->].
  simpl in L2, L3. rewrite lookup_insert_ne in L2 by done.
  rewrite !lookup_insert_ne in L3 by done.
  split; [by repeat split; eexists|].
  unfold call_forEach in H.
  apply bind_normal in H as (f & s11 & Hf & H). apply lift_normal in Hf as [_ ->].
  assert (exists items, ps = VArr items /\ for_each items add_row s9 = (st', Normal tt))
    as (items & -> & Hloop).
  { destruct f, ps; try discriminate H. eauto. }
  apply (for_each_normal _ _ _ (node_tag n3) "" []) in Hloop as (pls & Hpls & Ht).
  - exists items, pls, (node_tag n3). by rewrite app_nil_l in Ht.
  - apply (f_equal fst) in Hb. simpl in Hb. rewrite <- Hb.
    rewrite update_background_elements. simpl. apply lookup_insert_eq.
Qed.

Lemma render_normal_end_witness :
  handles (page sample_state) /\
  exists items pls tag,
    get sample_response "players" = Normal (VArr items) /\
    mapM decode_player items = Some pls /\
    elements (page (render sample_cfg sample_response sample_state).1) !! players_table
    = Some (Node tag "" (row_of <$> pls)).
Proof.
  apply (render_normal_end sample_cfg sample_response sample_state
           (render sample_cfg sample_response sample_state).1).
  vm_compute. reflexivity.
Defined.

(** ** A player the loop cannot render *)

Lemma for_each_stops good : forall bad rest pls st tag html kids,
  mapM decode_player good = Some pls ->
  decode_player bad = None ->
  elements (page st) !! players_table = Some (Node tag html kids) ->
  for_each (good ++ bad :: rest) add_row st =
    (State (Document (<[players_table := Node tag html (kids ++ (row_of <$> pls))]>
                        (elements (page st)))
                     (body_style (page st)))
           (log st ++ (EAppendChild players_table <$> (row_of <$> pls))),
     Throw TypeError).
Proof.
  induction good as [|p good IH]; intros bad rest pls st tag html kids Hm Hbad Hl.
  - injection Hm as <-. simpl. unfold bind. rewrite (add_row_invalid _ _ Hbad).
    rewrite !app_nil_r, insert_id by done. by destruct st as [[]].
  - simpl in Hm. destruct (decode_player p) as [pl|] eqn:Hp; [|discriminate].
    simpl in Hm. destruct (mapM decode_player good) as [pls'|] eqn:Hps; [|discriminate].
    injection Hm as <-. simpl for_each. unfold bind at 1.
    erewrite add_row_valid by eassumption.
    erewrite IH; [|reflexivity|exact Hbad|simpl; apply lookup_insert_eq].
    simpl. rewrite insert_insert_eq, <- !app_assoc. reflexivity.
Qed.

Lemma rendered_page_rows cfg sn mn mi pls d n :
  elements d !! players_table = Some n ->
  <[players_table := Node (node_tag n) "" (row_of <$> pls)]>
    (elements (rendered_page cfg (head_only sn mn mi) d))
  = elements (rendered_page cfg
                {| servername := sn; map_name := mn; map_image := mi; players := pls |}
                d).
Proof.
  intros H. simpl. apply map_eq. intros j.
  rewrite lookup_insert, !lookup_with_content.
  repeat case_decide; subst; try done. by rewrite H.
Qed.

(** X2.  When the server name and the map are valid and the players array
    has an item that is not an object with a text [name] and a text [skin],
    the callback throws at that item: the page and the log are those of the
    response cut before that item, the rows of the players before it being
    in the table and no row of a later player. *)
Theorem bad_player_stops_rows cfg fields mfields sn mn mi good bad rest pls st :
  handles (page st) ->
  assoc "servername" fields = Some (VStr sn) ->
  assoc "map" fields = Some (VObj mfields) ->
  assoc "name" mfields = Some (VStr mn) ->
  assoc "image" mfields = Some (VStr mi) ->
  assoc "players" fields = Some (VArr (good ++ bad :: rest)) ->
  mapM decode_player good = Some pls ->
  decode_player bad = None ->
  render cfg (VObj fields) st
  = (State (rendered_page cfg
              {| servername := sn; map_name := mn; map_image := mi; players := pls |}
              (page st))
           (log st ++ rendered_log cfg
              {| servername := sn; map_name := mn; map_image := mi; players := pls |}),
     Throw TypeError).
Proof.
  intros Hh Hsn Hm Hmn Hmi Hpl Hgood Hbad.
  pose proof Hh as (_ & _ & [n3 H3]).
  rewrite (render_head _ _ _ _ _ _ _ Hsn Hm Hmn Hmi Hh), Hpl.
  assert (Hcall : forall items s, call_forEach (VArr items) add_row s
                                  = for_each items add_row s) by reflexivity.
  rewrite Hcall.
  erewrite for_each_stops;
    [|exact Hgood|exact Hbad|cbn [page]; by apply rendered_table].
  cbn [page log]. rewrite app_nil_l, (rendered_page_rows _ _ _ _ _ _ _ H3).
  unfold rendered_log, head_only. cbn [servername map_name map_image players].
  simpl fmap. rewrite !app_nil_r, <- !app_assoc. reflexivity.
Qed.

Lemma bad_player_stops_rows_witness :
  render sample_cfg
    (VObj [("servername", VStr "S");
           ("map", VObj [("name", VStr "M"); ("image", VStr "None")]);
           ("players", VArr ([player_value "A" "us"]
                             ++ VObj [("name", VStr "B")] :: [player_value "C" "ge"]))])
    sample_state
  = (State (rendered_page sample_cfg
              {| servername := "S"; map_name := "M"; map_image := "None";
                 players := [ {| player_name := "A"; player_skin := "us" |} ] |}
              (page sample_state))
           (log sample_state ++ rendered_log sample_cfg
              {| servername := "S"; map_name := "M"; map_image := "None";
                 players := [ {| player_name := "A"; player_skin := "us" |} ] |}),
     Throw TypeError).
Proof.
  apply (bad_player_stops_rows sample_cfg _
           [("name", VStr "M"); ("image", VStr "None")] "S" "M" "None"
           [player_value "A" "us"] (VObj [("name", VStr "B")]) [player_value "C" "ge"]
           [ {| player_name := "A"; player_skin := "us" |} ] sample_state).
  - exact sample_handles.
  - reflexivity.
  - reflexivity.
  - reflexivity.
  - reflexivity.
  - reflexivity.
  - reflexivity.
  - reflexivity.
Defined.

(** ** Bodies and pages the script does not expect *)

(** X3.  A body that parses to [null], a boolean, a number or a string is
    handed to the callback, which throws at its first statement: the request
    is the only thing logged, the page is the one before, and the rejection
    stays unhandled. *)
Theorem primitive_body_rejected cfg status d w :
  primitive d = true ->
  run (refresh cfg (Response status (Some d))) w
  = (World (State (page (now w))
                  (log (now w) ++ [EFetch (api_url cfg +:+ "/server_info")]))
           (unhandled w ++ [TypeError]),
     None).
Proof. intros H. destruct d; try discriminate H; reflexivity. Qed.

Lemma primitive_body_rejected_witness :
  run (refresh sample_cfg (Response 503 (Some (VStr "maintenance")))) sample_world
  = (World (State (page (now sample_world))
                  (log (now sample_world)
                   ++ [EFetch (api_url sample_cfg +:+ "/server_info")]))
           (unhandled sample_world ++ [TypeError]),
     None).
Proof.
  apply (primitive_body_rejected sample_cfg 503 (VStr "maintenance") sample_world).
  reflexivity.
Defined.

(** X4.  On a page without the map-title element the callback throws before
    it has written anything, whatever the body: the state is the one
    before. *)
Theorem missing_title_element cfg d st :
  elements (page st) !! map_title = None ->
  render cfg d st = (st, Throw TypeError).
Proof.
  intros H. unfold render, bind at 1, lift at 1.
  destruct (get d "map") as [m|e] eqn:Hm; [|by rewrite (get_throws _ _ _ Hm)].
  unfold bind at 1, lift at 1.
  destruct (get m "name") as [n|e] eqn:Hn; [|by rewrite (get_throws _ _ _ Hn)].
  unfold bind at 1, set_innerHTML. by rewrite H.
Qed.

Lemma missing_title_element_witness :
  render sample_cfg sample_response sample_state_no_title
  = (sample_state_no_title, Throw TypeError).
Proof.
  apply (missing_title_element sample_cfg sample_response sample_state_no_title).
  vm_compute. reflexivity.
Defined.

Lemma get_own fields k v : assoc k fields = Some v -> get (VObj fields) k = Normal v.
Proof. intros H. simpl. by rewrite H. Qed.

(** X5.  On a page with the map-title and server-name elements and without
    the players table, a body with a text server name and map name gets both
    written and then the callback throws at clearing the table: the
    background is not updated and no row is built, whatever [image] and
    [players] are. *)
Theorem missing_table_element cfg fields mfields sn mn st :
  is_Some (elements (page st) !! map_title) ->
  is_Some (elements (page st) !! server_name) ->
  elements (page st) !! players_table = None ->
  assoc "servername" fields = Some (VStr sn) ->
  assoc "map" fields = Some (VObj mfields) ->
  assoc "name" mfields = Some (VStr mn) ->
  render cfg (VObj fields) st
  = (State (Document
              (with_content (with_content (elements (page st)) map_title mn [])
                 server_name sn [])
              (body_style (page st)))
           (log st ++ [ESetInnerHTML map_title mn; ESetInnerHTML server_name sn]),
     Throw TypeError).
Proof.
  intros [n1 H1] [n2 H2] H3 Hsn Hm Hmn.
  destruct ids_distinct as (D12 & D13 & D23).
  unfold render, bind at 1, lift at 1. rewrite (get_own _ _ _ Hm).
  unfold bind at 1, lift at 1. rewrite (get_own _ _ _ Hmn).
  unfold bind at 1. rewrite (set_innerHTML_text _ _ _ _ H1).
  unfold bind at 1, lift at 1. rewrite (get_own _ _ _ Hsn).
  unfold bind at 1. erewrite set_innerHTML_text
    by (simpl; rewrite lookup_insert_ne by done; exact H2).
  unfold bind at 1, set_innerHTML at 1. cbn [page elements].
  rewrite !lookup_insert_ne, H3 by done.
  rewrite (with_content_lookup _ _ _ _ _ H1).
  erewrite (with_content_lookup _ server_name)
    by (rewrite lookup_insert_ne by done; exact H2).
  cbn [log]. by rewrite <- !app_assoc.
Qed.

Lemma missing_table_element_witness :
  render sample_cfg sample_response sample_state_no_table
  = (State (Document
              (with_content
                 (with_content (elements (page sample_state_no_table)) map_title
                    "St Mere <b>Eglise</b>" [])
                 server_name "Test <i>Server</i>" [])
              (body_style (page sample_state_no_table)))
           (log sample_state_no_table
            ++ [ESetInnerHTML map_title "St Mere <b>Eglise</b>";
                ESetInnerHTML server_name "Test <i>Server</i>"]),
     Throw TypeError).
Proof.
  apply (missing_table_element sample_cfg _
           [("name", VStr "St Mere <b>Eglise</b>"); ("image", VStr "town.jpg")]
           "Test <i>Server</i>" "St Mere <b>Eglise</b>" sample_state_no_table).
  - eexists. vm_compute. reflexivity.
  - eexists. vm_compute. reflexivity.
  - vm_compute. reflexivity.
  - reflexivity.
  - reflexivity.
  - reflexivity.
Defined.

(** ** What the script puts in the log *)

Section Respects.

Variable R : state -> state -> Prop.
Hypothesis R_refl : forall st, R st st.
Hypothesis R_trans : forall st1 st2 st3, R st1 st2 -> R st2 st3 -> R st1 st3.

Lemma respects_lift {A} (o : outcome A) : respects R (lift o).
Proof. intros st. apply R_refl. Qed.

Lemma respects_ret {A} (a : A) : respects R (ret a).
Proof. intros st. apply R_refl. Qed.

Lemma respects_throw {A} (e : exn) : respects R (@throw A e).
Proof. intros st. apply R_refl. Qed.

Lemma respects_bind {A B} (m : M A) (k : A -> M B) :
  respects R m -> (forall a, respects R (k a)) -> respects R (bind m k).
Proof.
  intros Hm Hk st. unfold bind. specialize (Hm st).
  destruct (m st) as [st' [a|e]]; [|exact Hm].
  eapply R_trans; [exact Hm | apply Hk].
Qed.

Lemma respects_for_each items callback :
  (forall x, respects R (callback x)) -> respects R (for_each items callback).
Proof.
  intros H. induction items as [|x items IH]; simpl; [apply respects_ret|].
  apply respects_bind; [apply H | intros _; exact IH].
Qed.

Lemma respects_call_forEach v callback :
  (forall x, respects R (callback x)) -> respects R (call_forEach v callback).
Proof.
  intros H. unfold call_forEach. apply respects_bind; [apply respects_lift|].
  intros f. destruct f, v; try apply respects_throw. by apply respects_for_each.
Qed.

(** The callback respects what its four kinds of write respect. *)
Lemma respects_render cfg data :
  (forall id v, is_handle id -> respects R (set_innerHTML id v)) ->
  (forall child, respects R (appendChild players_table child)) ->
  (forall text, respects R (set_backgroundImage text)) ->
  respects R (render cfg data).
Proof.
  intros Hset Happ Hbg.
  assert (Hub : forall image, respects R (update_background cfg image)).
  { intros image. unfold update_background.
    destruct (truthy image); [|apply respects_ret].
    apply respects_bind; [apply respects_lift|]. intros [|]; [|apply respects_ret].
    apply respects_bind; [apply respects_lift|]. intros s. apply Hbg. }
  assert (Hrow : forall p, respects R (add_row p)).
  { intros p. unfold add_row.
    repeat (apply respects_bind; [apply respects_lift|]; intros ?). apply Happ. }
  unfold render.
  repeat first
    [ apply respects_call_forEach, Hrow
    | apply respects_bind; [apply respects_lift|]; intros ?
    | apply respects_bind;
        [apply Hset; auto using is_handle_map_title, is_handle_server_name,
           is_handle_players_table|]; intros _
    | apply respects_bind; [apply Hub|]; intros _ ].
Qed.

End Respects.

Lemma writes_only_refl st : writes_only st st.
Proof. exists []. by rewrite app_nil_r. Qed.

Lemma writes_only_trans st1 st2 st3 :
  writes_only st1 st2 -> writes_only st2 st3 -> writes_only st1 st3.
Proof.
  intros (e1 & H1 & F1) (e2 & H2 & F2). exists (e1 ++ e2).
  split; [by rewrite H2, H1, app_assoc|].
  by rewrite forallb_app, F1, F2.
Qed.

Lemma writes_only_one st st' e :
  log st' = log st ++ [e] -> dom_write e = true -> writes_only st st'.
Proof. intros H He. exists [e]. split; [exact H|]. simpl. by rewrite He. Qed.

Lemma render_writes_only cfg data : respects writes_only (render cfg data).
Proof.
  apply respects_render.
  - apply writes_only_refl.
  - apply writes_only_trans.
  - intros id v Hid st. unfold set_innerHTML.
    destruct (elements (page st) !! id) as [[tag html kids]|];
      [|apply writes_only_refl].
    destruct (dom_string v) as [s|]; [|apply writes_only_refl].
    eapply writes_only_one; [reflexivity|].
    by destruct Hid as [-> | [-> | ->]].
  - intros child st. unfold appendChild.
    destruct (elements (page st) !! players_table) as [[tag html kids]|];
      [|apply writes_only_refl].
    by eapply writes_only_one.
  - intros text st. by eapply writes_only_one.
Qed.

(** X6.  Whatever comes back for the request and whatever the body holds,
    a refresh logs exactly one request, to [api_url] followed by
    [/server_info], before anything else; every later event is a write to
    the markup of one of the three elements, a child appended to the players
    table, or the background image.  No second request is ever sent. *)
Theorem one_request_then_writes cfg r st :
  exists evs,
    log (refresh cfg r st).1
    = log st ++ EFetch (api_url cfg +:+ "/server_info") :: evs /\
    forallb dom_write evs = true.
Proof.
  set (sent := State (page st) (log st ++ [EFetch (api_url cfg +:+ "/server_info")])).
  assert (Hr : refresh cfg r st = settle (render cfg) r sent) by reflexivity.
  rewrite Hr.
  assert (writes_only sent (settle (render cfg) r sent).1) as (evs & Hl & Hw).
  { destruct r as [|status [d|]]; simpl;
      [apply writes_only_refl | apply render_writes_only | apply writes_only_refl]. }
  exists evs. split; [|exact Hw]. rewrite Hl. unfold sent. simpl.
  by rewrite <- app_assoc.
Qed.

(** ** A failed request beside a good one *)

(** X7.  Of two refreshes in flight, one fails (no response, or a body that
    is not JSON) and the other receives a valid response.  Whichever was
    called first and whichever result arrives first, the page ends as the
    valid response alone renders it and exactly one rejection is left
    unhandled: a failed request does not disturb the other. *)
Theorem failed_request_beside_valid cfg r status d resp first_arrives_first w :
  (r = NetworkError \/ exists s, r = Response s None) ->
  decode d = Some resp ->
  handles (page (now w)) ->
  (page (now (two_refreshes cfg r (Response status (Some d)) first_arrives_first w))
   = rendered_page cfg resp (page (now w)) /\
   exists e,
     unhandled (two_refreshes cfg r (Response status (Some d)) first_arrives_first w)
     = unhandled w ++ [e]) /\
  (page (now (two_refreshes cfg (Response status (Some d)) r first_arrives_first w))
   = rendered_page cfg resp (page (now w)) /\
   exists e,
     unhandled (two_refreshes cfg (Response status (Some d)) r first_arrives_first w)
     = unhandled w ++ [e]).
Proof.
  intros Hr Hd Hh.
  assert (Hfail : exists e, forall st, settle (render cfg) r st = (st, Throw e)).
  { destruct Hr as [-> | [s ->]]; eexists; reflexivity. }
  destruct Hfail as [e Hfail].
  assert (Hok : forall l,
    render cfg d (State (page (now w)) l)
    = (State (rendered_page cfg resp (page (now w))) (l ++ rendered_log cfg resp),
       Normal tt)).
  { intros l. by rewrite (render_valid cfg d resp (State (page (now w)) l) Hd Hh). }
  split; (split; [|exists e]);
    destruct first_arrives_first; unfold two_refreshes, run;
    cbn [update_info_page get_server_info now unhandled fst snd page log];
    rewrite ?Hfail; cbn [settle now unhandled fst snd page log];
    rewrite ?Hok; cbn [now unhandled fst snd page log];
    rewrite ?Hfail; cbn [settle now unhandled fst snd page log];
    rewrite ?Hok; reflexivity.
Qed.

Lemma failed_request_beside_valid_witness :
  (page (now (two_refreshes sample_cfg NetworkError
                (Response 200 (Some sample_response)) false sample_world))
   = rendered_page sample_cfg sample_decoded (page (now sample_world)) /\
   exists e,
     unhandled (two_refreshes sample_cfg NetworkError
                  (Response 200 (Some sample_response)) false sample_world)
     = unhandled sample_world ++ [e]) /\
  (page (now (two_refreshes sample_cfg (Response 200 (Some sample_response))
                NetworkError false sample_world))
   = rendered_page sample_cfg sample_decoded (page (now sample_world)) /\
   exists e,
     unhandled (two_refreshes sample_cfg (Response 200 (Some sample_response))
                  NetworkError false sample_world)
     = unhandled sample_world ++ [e]).
Proof.
  apply (failed_request_beside_valid sample_cfg NetworkError 200 sample_response
           sample_decoded false sample_world).
  - left. reflexivity.
  - reflexivity.
  - exact sample_handles.
Defined.

(** ** Fields that are not texts *)



(** ** The background for any image *)





